(** * The RunPod job handler of LTX-Video ([handler.py])

    A shallow embedding of [handler(job)] and of the part of the Python
    runtime it relies on (JSON-shaped values, truthiness, [dict.get],
    [int()], [float()], iteration, exceptions), followed by the
    properties of the handler.

    The handler talks to four collaborators that are not part of the file:
    [random.randint], [tempfile.mkdtemp], [inference.get_device] and
    [inference.infer].  Their answers are collected in a record [world];
    the handler is a function of the world and of the job, and it produces
    the value it returns (or the exception it lets escape) together with
    the trace of the external calls it made. *)

From Stdlib Require Import ZArith String Ascii List Bool Lia.
From Stdlib Require Import Floats.SpecFloat.
From stdpp Require Import base option list strings gmap.

Import ListNotations.
Local Open Scope Z_scope.
Local Open Scope string_scope.
Local Open Scope list_scope.
Set Warnings "-register-all".

(** ** Python values

    A job is what [json.loads] produces: [None], booleans, integers,
    floats, strings, lists and dictionaries with string keys.  Floats are
    IEEE-754 binary64 numbers, in the representation of [SpecFloat]. *)

Module Py.

Inductive pyval : Type :=
| VNone
| VBool (b : bool)
| VInt (z : Z)
| VFloat (f : spec_float)
| VStr (s : string)
| VList (l : list pyval)
| VDict (d : gmap string pyval).

Inductive pytype : Type :=
| TNone | TBool | TInt | TFloat | TStr | TList | TDict.

Definition type_of (v : pyval) : pytype :=
  match v with
  | VNone => TNone
  | VBool _ => TBool
  | VInt _ => TInt
  | VFloat _ => TFloat
  | VStr _ => TStr
  | VList _ => TList
  | VDict _ => TDict
  end.

(** The failures the interpreter itself can raise in [handler]. *)
Inductive fault : Type :=
| NoAttribute (t : pytype) (attr : string)   (* AttributeError *)
| NotIterable (t : pytype)                   (* TypeError *)
| IntBadArgument (t : pytype)                (* TypeError *)
| IntBadLiteral (s : string)                 (* ValueError *)
| IntTooManyDigits                           (* ValueError *)
| IntOfNaN                                   (* ValueError *)
| IntOfInfinity                              (* OverflowError *)
| FloatBadArgument (t : pytype)              (* TypeError *)
| FloatBadLiteral (s : string)               (* ValueError *)
| FloatOverflow.                             (* OverflowError *)

(** Exceptions: the ones raised by the interpreter, and the ones raised
    by a collaborator, of which the name of the class and the text [str(e)]
    are known. *)
Inductive exn : Type :=
| Builtin (f : fault)
| External (class_name : string) (message : string).

(** [isinstance(e, Exception)], the test of an [except Exception] clause.
    The faults of the interpreter are [AttributeError], [TypeError],
    [ValueError] and [OverflowError], which derive from [Exception]. Of the
    classes of Python, [BaseException], [SystemExit], [KeyboardInterrupt],
    [GeneratorExit], [CancelledError] and [BaseExceptionGroup] do not; a
    class that a collaborator derives from one of these is represented
    under the name of that base. *)
Definition not_exceptions : list string :=
  ["BaseException"; "SystemExit"; "KeyboardInterrupt"; "GeneratorExit";
   "CancelledError"; "BaseExceptionGroup"].

Definition is_Exception (e : exn) : bool :=
  match e with
  | Builtin _ => true
  | External class_name _ => negb (bool_decide (class_name ∈ not_exceptions))
  end.

(** *** Truthiness: [bool(v)], as used by [not v] *)

Definition float_is_zero (f : spec_float) : bool :=
  match f with
  | S754_zero _ => true
  | _ => false
  end.

Definition truthy (v : pyval) : bool :=
  match v with
  | VNone => false
  | VBool b => b
  | VInt z => negb (Z.eqb z 0)
  | VFloat f => negb (float_is_zero f)
  | VStr s => negb (String.eqb s "")
  | VList l => match l with [] => false | _ :: _ => true end
  | VDict d => negb (bool_decide (d = ∅))
  end.

Definition is_None (v : pyval) : bool :=
  match v with
  | VNone => true
  | _ => false
  end.

(** *** [v.get(key, default)]

    Only dictionaries have a [get] method among JSON-shaped values. *)

Definition get (v : pyval) (key : string) (dflt : pyval) : fault + pyval :=
  match v with
  | VDict d => inr (default dflt (d !! key))
  | _ => inl (NoAttribute (type_of v) "get")
  end.

(** *** Iteration: the sequence of values [for x in v] runs through

    The keys of a dictionary come in the order of [map_to_list]; Python
    uses insertion order, which a [gmap] does not record.  The handler's
    loop body fails on the first key whatever it is, so the order of the
    keys is not observable here. *)

Fixpoint chars (s : string) : list pyval :=
  match s with
  | EmptyString => []
  | String c s' => VStr (String c EmptyString) :: chars s'
  end.

Definition iter (v : pyval) : fault + list pyval :=
  match v with
  | VList l => inr l
  | VStr s => inr (chars s)
  | VDict d => inr (VStr <$> (map_to_list d).*1)
  | _ => inl (NotIterable (type_of v))
  end.

(** *** Text of numbers

    The parsers below follow CPython on ASCII text, where the white space
    that [int()] and [float()] strip is tab, newline, vertical tab, form
    feed, carriage return and space. (When a string has other characters,
    CPython first maps the decimal digits and the white space of other
    scripts to ASCII; that step is not represented, and such a string is
    refused here.) *)

Definition code (c : ascii) : Z := Z.of_N (N_of_ascii c).

Definition is_space (c : ascii) : bool :=
  let n := code c in
  (Z.leb 9 n && Z.leb n 13) || Z.eqb n 32.

Definition digit_of (c : ascii) : option Z :=
  let n := code c in
  if Z.leb 48 n && Z.leb n 57 then Some (n - 48) else None.

Definition is_digit (c : ascii) : bool :=
  match digit_of c with Some _ => true | None => false end.

Definition lower (c : ascii) : ascii :=
  let n := code c in
  if Z.leb 65 n && Z.leb n 90 then ascii_of_N (Z.to_N (n + 32)) else c.

Fixpoint lower_str (s : string) : string :=
  match s with
  | EmptyString => EmptyString
  | String c s' => String (lower c) (lower_str s')
  end.

Fixpoint lstrip (s : string) : string :=
  match s with
  | EmptyString => EmptyString
  | String c s' => if is_space c then lstrip s' else s
  end.

Fixpoint rstrip (s : string) : string :=
  match s with
  | EmptyString => EmptyString
  | String c s' =>
      match rstrip s' with
      | EmptyString => if is_space c then EmptyString else String c EmptyString
      | r => String c r
      end
  end.

Definition strip (s : string) : string := rstrip (lstrip s).

(** An underscore is allowed between two digits and nowhere else; the
    accepted ones are dropped before the number is read. *)
Fixpoint drop_underscores (prev : option ascii) (s : string) : option string :=
  match s with
  | EmptyString =>
      if bool_decide (prev = Some "_"%char) then None else Some EmptyString
  | String c s' =>
      if bool_decide (c = "_"%char) then
        match prev with
        | Some p => if is_digit p then drop_underscores (Some c) s' else None
        | None => None
        end
      else if bool_decide (prev = Some "_"%char) && negb (is_digit c) then None
      else String c <$> drop_underscores (Some c) s'
  end.

(** The longest prefix of digits: its value continuing [acc], the number
    of digits read, and what follows. *)
Fixpoint take_digits (s : string) (acc : Z) (n : Z) : Z * Z * string :=
  match s with
  | EmptyString => (acc, n, s)
  | String c s' =>
      match digit_of c with
      | Some d => take_digits s' (10 * acc + d) (n + 1)
      | None => (acc, n, s)
      end
  end.

Definition take_sign (s : string) : bool * string :=
  match s with
  | String "-" s' => (true, s')
  | String "+" s' => (false, s')
  | _ => (false, s)
  end.

(** The default of [sys.get_int_max_str_digits()]: since CPython 3.11
    (and the security releases of the earlier versions) [int()] refuses a
    decimal literal with more digits. *)
Definition int_max_str_digits : Z := 4300.

(** [int(s)] for a string, base 10. *)
Definition int_of_str (s : string) : fault + Z :=
  match drop_underscores None (strip s) with
  | None => inl (IntBadLiteral s)
  | Some body =>
      let '(neg, ds) := take_sign body in
      match take_digits ds 0 0 with
      | (z, n, EmptyString) =>
          if Z.ltb 0 n then
            if Z.ltb int_max_str_digits n then inl IntTooManyDigits
            else inr (if neg then - z else z)
          else inl (IntBadLiteral s)
      | _ => inl (IntBadLiteral s)
      end
  end.

(** *** Floats *)

Definition prec : Z := 53.
Definition emax : Z := 1024.

(** [m * 10^e] rounded to the nearest binary64 number, ties to even. *)
Definition round_decimal (neg : bool) (m : Z) (e : Z) : spec_float :=
  match m with
  | Zpos p =>
      if Z.leb 0 e then binary_round prec emax neg (Z.to_pos (m * 10 ^ e)) 0
      else
        let '(q, e', l) := SFdiv_core_binary prec emax m 0 (10 ^ (- e)) 0 in
        binary_round_aux prec emax neg q e' l
  | _ => S754_zero neg
  end.

(** The exponent part of a decimal literal: nothing, or [e], an optional
    sign and at least one digit. *)
Definition exponent_of (s : string) : option Z :=
  match s with
  | EmptyString => Some 0
  | String c s' =>
      if bool_decide (lower c = "e"%char) then
        let '(neg, ds) := take_sign s' in
        match take_digits ds 0 0 with
        | (z, n, EmptyString) =>
            if Z.ltb 0 n then Some (if neg then - z else z) else None
        | _ => None
        end
      else None
  end.

(** [float(s)] for a string. *)
Definition float_of_str (s : string) : option spec_float :=
  body ← drop_underscores None (strip s);
  let '(neg, rest) := take_sign body in
  let name := lower_str rest in
  if bool_decide (name = "inf") || bool_decide (name = "infinity") then
    Some (S754_infinity neg)
  else if bool_decide (name = "nan") then Some S754_nan
  else
    let '(i, ni, after_int) := take_digits rest 0 0 in
    let '(m, nf, after_frac) :=
      match after_int with
      | String "." fr => take_digits fr i 0
      | _ => (i, 0, after_int)
      end in
    if Z.ltb 0 (ni + nf) then
      e ← exponent_of after_frac;
      Some (round_decimal neg m (e - nf))
    else None.

(** [float(z)] for an integer: the nearest float, unless it is out of
    range. *)
Definition float_of_int (z : Z) : option spec_float :=
  match binary_normalize prec emax z 0 false with
  | S754_infinity _ => None
  | f => Some f
  end.

(** [int(f)] for a float: truncation towards zero. *)
Definition int_of_float (f : spec_float) : fault + Z :=
  match f with
  | S754_zero _ => inr 0
  | S754_finite neg m e =>
      let a := if Z.leb 0 e then Z.shiftl (Zpos m) e else Z.shiftr (Zpos m) (- e) in
      inr (if neg then - a else a)
  | S754_infinity _ => inl IntOfInfinity
  | S754_nan => inl IntOfNaN
  end.

(** *** [int(v)] and [float(v)] *)

Definition int (v : pyval) : fault + Z :=
  match v with
  | VInt z => inr z
  | VBool b => inr (if b then 1 else 0)
  | VFloat f => int_of_float f
  | VStr s => int_of_str s
  | _ => inl (IntBadArgument (type_of v))
  end.

Definition float (v : pyval) : fault + spec_float :=
  match v with
  | VFloat f => inr f
  | VInt z =>
      match float_of_int z with
      | Some f => inr f
      | None => inl FloatOverflow
      end
  | VBool b => inr (binary_normalize prec emax (if b then 1 else 0) 0 false)
  | VStr s =>
      match float_of_str s with
      | Some f => inr f
      | None => inl (FloatBadLiteral s)
      end
  | _ => inl (FloatBadArgument (type_of v))
  end.

(** The float literals of [handler.py]. *)
Definition float_1_0 : spec_float := S754_finite false 4503599627370496 (-52).
Definition float_0_15 : spec_float := S754_finite false 5404319552844595 (-55).

End Py.

Import Py.

(** ** The collaborators *)

Definition device : Type := string.

(** The keyword arguments of the call to [infer]. *)
Record infer_args : Type := InferArgs {
  output_path : string;
  seed : Z;
  pipeline_config : string;
  image_cond_noise_scale : spec_float;
  height : Z;
  width : Z;
  num_frames : Z;
  frame_rate : Z;
  prompt : pyval;
  negative_prompt : pyval;
  offload_to_cpu : bool;
  input_media_path : pyval;
  conditioning_media_paths : list pyval;
  conditioning_strengths : list spec_float;
  conditioning_start_frames : list Z;
  device_arg : device
}.

(** What the handler cannot decide by itself.
    - [random_bits]: the raw output of the random generator;
    - [mkdtemp prefix]: the path of the directory created, or the exception
      raised; [tempfile.mkdtemp] returns an absolute, normalised path,
      which [Path] and [str] leave as it is;
    - [get_device]: the device, or the exception raised;
    - [infer args]: the exception raised, or, when the call returns, the
      names of the entries of the directory [output_path] in the order in
      which the directory lists them;
    - [fault_text]: the text [str(e)] of an exception raised by the
      interpreter, which varies with its version. *)
Record world : Type := World {
  random_bits : Z;
  mkdtemp : string -> exn + string;
  get_device : exn + device;
  infer : infer_args -> exn + list string;
  fault_text : fault -> string
}.

(** [str(e)] *)
Definition str_exn (w : world) (e : exn) : string :=
  match e with
  | Builtin f => fault_text w f
  | External _ message => message
  end.

(** [random.randint(a, b)]: an integer of [a..b], both ends included. *)
Definition randint (w : world) (a b : Z) : Z :=
  a + random_bits w mod (b - a + 1).

(** ** Control flow and effects

    A computation either goes on with a value, or leaves the function: by
    [return], or with an exception.  It records the external calls it
    makes, in order. *)

Inductive event : Type :=
| CallRandint (a b : Z)
| CallMkdtemp (prefix : string)
| CallGetDevice
| CallInfer (args : infer_args)
| Print (text : string)
| PrintTraceback.

Inductive exit : Type :=
| Returned (v : pyval)
| Raised (e : exn).

Definition M (A : Type) : Type := (exit + A) * list event.

Definition ret {A} (a : A) : M A := (inr a, []).

Definition bind {A B} (m : M A) (k : A -> M B) : M B :=
  match m with
  | (inl x, t) => (inl x, t)
  | (inr a, t) => let '(r, t') := k a in (r, t ++ t')
  end.

Definition emit (ev : event) : M unit := (inr tt, [ev]).
Definition return_ {A} (v : pyval) : M A := (inl (Returned v), []).
Definition raise {A} (e : exn) : M A := (inl (Raised e), []).

(** The interpreter's own operations raise their fault. *)
Definition run {A} (r : fault + A) : M A :=
  match r with
  | inl f => raise (Builtin f)
  | inr a => ret a
  end.

(** A call to a collaborator: the event, then its answer. *)
Definition call {A} (ev : event) (r : exn + A) : M A :=
  bind (emit ev) (fun _ => match r with inl e => raise e | inr a => ret a end).

(** [try: body except Exception as e: handle(e)]: an exception that is
    not an instance of [Exception] goes through. *)
Definition try_except {A} (body : M A) (handle : exn -> M A) : M A :=
  match body with
  | (inl (Raised e), t) =>
      if is_Exception e then let '(r, t') := handle e in (r, t ++ t')
      else body
  | _ => body
  end.

Declare Scope py_scope.
Delimit Scope py_scope with py.
Notation "x <- m ;; k" := (bind m (fun x => k))
  (at level 100, m at next level, right associativity) : py_scope.
Notation "m ;; k" := (bind m (fun _ => k))
  (at level 100, right associativity) : py_scope.
Notation "'If' c 'Return' v ;; k" := (if c then return_ v else k)
  (at level 100, c at level 9, v at level 9, right associativity) : py_scope.

(** ** Paths and [Path.glob] *)

(** [fnmatch] for patterns made of literal characters and [*]. *)
Fixpoint fnmatch (pattern : string) : string -> bool :=
  match pattern with
  | EmptyString => fun name => bool_decide (name = EmptyString)
  | String "*" p =>
      fix star (name : string) : bool :=
        fnmatch p name ||
        match name with
        | EmptyString => false
        | String _ name' => star name'
        end
  | String c p => fun name =>
      match name with
      | EmptyString => false
      | String d name' => bool_decide (c = d) && fnmatch p name'
      end
  end.

(** [list(Path(dir).glob(pattern))] for a pattern without a directory
    part: the entries of [dir] itself whose name matches, as paths, in the
    order of the listing. *)
Definition glob (listing : list string) (dir pattern : string) : list string :=
  (fun name => dir +:+ "/" +:+ name) <$>
  filter (fun name => Is_true (fnmatch pattern name)) listing.

(** ** [handler.py] *)

Definition DEFAULT_MODEL_CONFIG : string := "configs/ltxv-13b-0.9.7-distilled.yaml".
Definition DEFAULT_HEIGHT : Z := 704.
Definition DEFAULT_WIDTH : Z := 1216.
Definition DEFAULT_NUM_FRAMES : Z := 121.
Definition DEFAULT_FRAME_RATE : Z := 30.

(** The two dictionaries the handler returns. *)
Definition error (text : string) : pyval := VDict {[ "error" := VStr text ]}.
Definition output_video (path : string) : pyval :=
  VDict {[ "output_video" := VStr path ]}.

(** The loop over [conditioning_images_input] (lines 64-75), with the
    three lists it appends to. *)
Fixpoint conditioning_loop (items : list pyval)
    (conditioning_media_paths : list pyval)
    (conditioning_start_frames : list Z)
    (conditioning_strengths : list spec_float)
  : M (list pyval * list Z * list spec_float) :=
  match items with
  | [] =>
      ret (conditioning_media_paths, conditioning_start_frames,
           conditioning_strengths)
  | image_info :: rest =>
      (url <- run (Py.get image_info "url" VNone) ;;
       start_frame <- run (Py.get image_info "start_frame" VNone) ;;
       strength <- run (Py.get image_info "strength" (VFloat float_1_0)) ;;
       If (negb (truthy url) || is_None start_frame)
       Return (error "Each conditioning image must have a 'url' and 'start_frame'.") ;;
       let conditioning_media_paths := conditioning_media_paths ++ [url] in
       start_frame <- run (Py.int start_frame) ;;
       let conditioning_start_frames :=
         conditioning_start_frames ++ [start_frame] in
       strength <- run (Py.float strength) ;;
       let conditioning_strengths := conditioning_strengths ++ [strength] in
       conditioning_loop rest conditioning_media_paths
         conditioning_start_frames conditioning_strengths)%py
  end.

(** The body of the [try] (lines 83-134). *)
Definition run_inference (w : world) (job_output_dir : string)
    (prompt negative_prompt height width num_frames frame_rate seed : pyval)
    (conditioning_media_paths : list pyval)
    (conditioning_strengths : list spec_float)
    (conditioning_start_frames : list Z) : M unit :=
  (device <- call CallGetDevice (get_device w) ;;
   emit (Print ("Starting inference with output directory: " +:+ job_output_dir)) ;;
   seed <- run (Py.int seed) ;;
   height <- run (Py.int height) ;;
   width <- run (Py.int width) ;;
   num_frames <- run (Py.int num_frames) ;;
   frame_rate <- run (Py.int frame_rate) ;;
   let args :=
     {| output_path := job_output_dir;
        seed := seed;
        pipeline_config := DEFAULT_MODEL_CONFIG;
        image_cond_noise_scale := float_0_15;
        height := height;
        width := width;
        num_frames := num_frames;
        frame_rate := frame_rate;
        prompt := prompt;
        negative_prompt := negative_prompt;
        offload_to_cpu := false;
        input_media_path := VNone;
        conditioning_media_paths := conditioning_media_paths;
        conditioning_strengths := conditioning_strengths;
        conditioning_start_frames := conditioning_start_frames;
        device_arg := device |} in
   listing <- call (CallInfer args) (infer w args) ;;
   let output_files :=
     glob listing job_output_dir "*.mp4" ++ glob listing job_output_dir "*.png" in
   match output_files with
   | [] => return_ (error "Inference completed but no output video/image file found.")
   | output_file_path :: _ =>
       emit (Print ("Inference successful. Output file: " +:+ output_file_path)) ;;
       return_ (output_video output_file_path)
   end)%py.

(** The [except Exception as e] clause (lines 136-141). *)
Definition inference_failed (w : world) (e : exn) : M unit :=
  (emit (Print ("Error during inference: " +:+ str_exn w e)) ;;
   emit PrintTraceback ;;
   return_ (error ("Inference failed: " +:+ str_exn w e)))%py.

Definition handler (w : world) (job : pyval) : M unit :=
  (job_input <- run (Py.get job "input" (VDict ∅)) ;;
   prompt <- run (Py.get job_input "prompt" VNone) ;;
   If (negb (truthy prompt)) Return (error "Prompt is a required input.") ;;
   negative_prompt <-
     run (Py.get job_input "negative_prompt"
            (VStr "worst quality, inconsistent motion, blurry, jittery, distorted")) ;;
   height <- run (Py.get job_input "height" (VInt DEFAULT_HEIGHT)) ;;
   width <- run (Py.get job_input "width" (VInt DEFAULT_WIDTH)) ;;
   num_frames <- run (Py.get job_input "num_frames" (VInt DEFAULT_NUM_FRAMES)) ;;
   frame_rate <- run (Py.get job_input "frame_rate" (VInt DEFAULT_FRAME_RATE)) ;;
   drawn <- call (CallRandint 0 (2 ^ 32 - 1)) (inr (randint w 0 (2 ^ 32 - 1))) ;;
   seed <- run (Py.get job_input "seed" (VInt drawn)) ;;
   conditioning_images_input <-
     run (Py.get job_input "conditioning_images" (VList [])) ;;
   If (negb (truthy conditioning_images_input))
   Return (error "At least one conditioning image (first frame) is required for image-to-video.") ;;
   job_output_dir <-
     call (CallMkdtemp "ltx_video_output_") (mkdtemp w "ltx_video_output_") ;;
   items <- run (Py.iter conditioning_images_input) ;;
   lists <- conditioning_loop items [] [] [] ;;
   let '(conditioning_media_paths, conditioning_start_frames,
         conditioning_strengths) := lists in
   If (negb (truthy (VList conditioning_media_paths)))
   Return (error "No valid conditioning images provided or processed.") ;;
   try_except
     (run_inference w job_output_dir prompt negative_prompt height width
        num_frames frame_rate seed conditioning_media_paths
        conditioning_strengths conditioning_start_frames)
     (inference_failed w))%py.

(** What a call of the handler comes to: the value returned ([None] when
    the body runs to its end) or the exception that escapes, and the
    external calls made. *)
Definition outcome (w : world) (job : pyval) : exit :=
  match fst (handler w job) with
  | inl x => x
  | inr _ => Returned VNone
  end.

Definition trace (w : world) (job : pyval) : list event := snd (handler w job).

(** * Definitions for the statements

    What follows is not part of [handler.py]: the vocabulary in which its
    properties are stated and proved, and the concrete worlds and jobs on
    which they are tried. *)

(** ** The shapes of a result *)

Definition is_error (v : pyval) : Prop := exists message, v = error message.
Definition is_output_video (v : pyval) : Prop := exists path, v = output_video path.

(** Exactly one of the two shapes. *)
Definition is_result (v : pyval) : Prop :=
  (is_error v /\ ~ is_output_video v) \/ (is_output_video v /\ ~ is_error v).

(** The entry of a returned dictionary under [key]. *)
Definition field (key : string) (v : pyval) : option pyval :=
  match v with
  | VDict d => d !! key
  | _ => None
  end.

(** ** Traces *)

(** [m], once the calls [evs] have been made. *)
Definition after {A} (evs : list event) (m : M A) : M A :=
  (fst m, evs ++ snd m).

(** ** The handler in stages *)

(** One round of the loop on [image_info]: it leaves the function, or it
    appends one element to each of the three lists. *)
Definition round (image_info : pyval) : exit + (pyval * Z * spec_float) :=
  match image_info with
  | VDict d =>
      let url := default VNone (d !! "url") in
      let start_frame := default VNone (d !! "start_frame") in
      let strength := default (VFloat float_1_0) (d !! "strength") in
      if negb (truthy url) || is_None start_frame then
        inl (Returned (error "Each conditioning image must have a 'url' and 'start_frame'."))
      else
        match Py.int start_frame with
        | inl f => inl (Raised (Builtin f))
        | inr n =>
            match Py.float strength with
            | inl f => inl (Raised (Builtin f))
            | inr x => inr (url, n, x)
            end
        end
  | _ => inl (Raised (Builtin (NoAttribute (type_of image_info) "get")))
  end.

(** The default of line 30. *)
Definition NEGATIVE_PROMPT : string :=
  "worst quality, inconsistent motion, blurry, jittery, distorted".

(** Everything before the [try] (lines 23-78): it leaves the function,
    or it hands the directory, the input mapping and the three lists over
    to the [try] statement. *)
Definition validate (w : world) (job : pyval)
  : exit + (string * gmap string pyval * (list pyval * list Z * list spec_float)) :=
  match job with
  | VDict j =>
      match default (VDict ∅) (j !! "input") with
      | VDict ji =>
          if negb (truthy (default VNone (ji !! "prompt"))) then
            inl (Returned (error "Prompt is a required input."))
          else if negb (truthy (default (VList []) (ji !! "conditioning_images"))) then
            inl (Returned (error "At least one conditioning image (first frame) is required for image-to-video."))
          else
            match mkdtemp w "ltx_video_output_" with
            | inl e => inl (Raised e)
            | inr dir =>
                match Py.iter (default (VList []) (ji !! "conditioning_images")) with
                | inl f => inl (Raised (Builtin f))
                | inr items =>
                    match fst (conditioning_loop items [] [] []) with
                    | inl x => inl x
                    | inr (ps, ns, xs) =>
                        if negb (truthy (VList ps)) then
                          inl (Returned (error "No valid conditioning images provided or processed."))
                        else inr (dir, ji, (ps, ns, xs))
                    end
                end
            end
      | job_input => inl (Raised (Builtin (NoAttribute (type_of job_input) "get")))
      end
  | _ => inl (Raised (Builtin (NoAttribute (type_of job) "get")))
  end.

(** The [try] statement (lines 81-141) on what [validate] hands over. *)
Definition attempt (w : world) (dir : string) (ji : gmap string pyval)
    (ps : list pyval) (ns : list Z) (xs : list spec_float) : M unit :=
  try_except
    (run_inference w dir
       (default VNone (ji !! "prompt"))
       (default (VStr NEGATIVE_PROMPT) (ji !! "negative_prompt"))
       (default (VInt DEFAULT_HEIGHT) (ji !! "height"))
       (default (VInt DEFAULT_WIDTH) (ji !! "width"))
       (default (VInt DEFAULT_NUM_FRAMES) (ji !! "num_frames"))
       (default (VInt DEFAULT_FRAME_RATE) (ji !! "frame_rate"))
       (default (VInt (randint w 0 (2 ^ 32 - 1))) (ji !! "seed"))
       ps xs ns)
    (inference_failed w).

(** The external calls made before the [try]. *)
Definition early (ev : event) : Prop :=
  ev = CallRandint 0 (2 ^ 32 - 1) \/ ev = CallMkdtemp "ltx_video_output_".

(** The arguments with which the [try] block calls [infer], or the
    exception raised before it gets there. *)
Definition infer_call (w : world) (dir : string) (ji : gmap string pyval)
    (ps : list pyval) (ns : list Z) (xs : list spec_float) : exn + infer_args :=
  match get_device w with
  | inl e => inl e
  | inr dev =>
  match Py.int (default (VInt (randint w 0 (2 ^ 32 - 1))) (ji !! "seed")) with
  | inl f => inl (Builtin f)
  | inr seed =>
  match Py.int (default (VInt DEFAULT_HEIGHT) (ji !! "height")) with
  | inl f => inl (Builtin f)
  | inr height =>
  match Py.int (default (VInt DEFAULT_WIDTH) (ji !! "width")) with
  | inl f => inl (Builtin f)
  | inr width =>
  match Py.int (default (VInt DEFAULT_NUM_FRAMES) (ji !! "num_frames")) with
  | inl f => inl (Builtin f)
  | inr num_frames =>
  match Py.int (default (VInt DEFAULT_FRAME_RATE) (ji !! "frame_rate")) with
  | inl f => inl (Builtin f)
  | inr frame_rate =>
      inr {| output_path := dir;
             seed := seed;
             pipeline_config := DEFAULT_MODEL_CONFIG;
             image_cond_noise_scale := float_0_15;
             height := height;
             width := width;
             num_frames := num_frames;
             frame_rate := frame_rate;
             prompt := default VNone (ji !! "prompt");
             negative_prompt := default (VStr NEGATIVE_PROMPT) (ji !! "negative_prompt");
             offload_to_cpu := false;
             input_media_path := VNone;
             conditioning_media_paths := ps;
             conditioning_strengths := xs;
             conditioning_start_frames := ns;
             device_arg := dev |}
  end end end end end end.

(** The result built from the listing of the output directory. *)
Definition located (listing : list string) (dir : string) : pyval :=
  match glob listing dir "*.mp4" ++ glob listing dir "*.png" with
  | [] => error "Inference completed but no output video/image file found."
  | output_file_path :: _ => output_video output_file_path
  end.

(** The result built from an exception caught by the [except] clause. *)
Definition failed (w : world) (e : exn) : pyval :=
  error ("Inference failed: " +:+ str_exn w e).

(** What the [except] clause makes of an exception of the [try]: an
    error result, unless the exception is not an instance of [Exception]
    and goes through. *)
Definition caught (w : world) (e : exn) : exit :=
  if is_Exception e then Returned (failed w e) else Raised e.

(** What the [try] statement comes to. *)
Definition attempt_result (w : world) (dir : string) (ji : gmap string pyval)
    (ps : list pyval) (ns : list Z) (xs : list spec_float) : exit :=
  match infer_call w dir ji ps ns xs with
  | inl e => caught w e
  | inr args =>
      match infer w args with
      | inl e => caught w e
      | inr listing => Returned (located listing dir)
      end
  end.

(** ** Conditioning entries *)

(** What lines 65-67 read from an entry that is a mapping. *)
Definition url_of (d : gmap string pyval) : pyval := default VNone (d !! "url").
Definition start_frame_of (d : gmap string pyval) : pyval :=
  default VNone (d !! "start_frame").
Definition strength_of (d : gmap string pyval) : pyval :=
  default (VFloat float_1_0) (d !! "strength").

(** The test of line 69: the entry has no usable [url], or no
    [start_frame]. *)
Definition missing_pair (image_info : pyval) : Prop :=
  exists d, image_info = VDict d /\
    (truthy (url_of d) = false \/ start_frame_of d = VNone).

(** The entry passes line 69, [int()] accepts its [start_frame] and
    [float()] its [strength]: it contributes [(url, n, x)]. *)
Definition contributes (image_info : pyval) (t : pyval * Z * spec_float) : Prop :=
  exists d, image_info = VDict d /\
    truthy (url_of d) = true /\
    t.1.1 = url_of d /\
    Py.int (start_frame_of d) = inr t.1.2 /\
    Py.float (strength_of d) = inr t.2.

Definition well_formed (image_info : pyval) : Prop :=
  exists t, contributes image_info t.

(** ** Concrete worlds and jobs *)

(** A world in which every collaborator succeeds and [infer] leaves the
    entries [listing] in the output directory. *)
Definition world_writing (listing : list string) : world :=
  {| random_bits := 20250101;
     mkdtemp := fun prefix => inr ("/tmp/" +:+ prefix +:+ "k3x9");
     get_device := inr "cuda";
     infer := fun _ => inr listing;
     fault_text := fun _ => "" |}.

(** A world in which [infer] raises [e]. *)
Definition world_failing (e : exn) : world :=
  {| random_bits := 20250101;
     mkdtemp := fun prefix => inr ("/tmp/" +:+ prefix +:+ "k3x9");
     get_device := inr "cuda";
     infer := fun _ => inl e;
     fault_text := fun _ => "" |}.

(** A world in which the temporary directory cannot be created. *)
Definition world_without_tmp : world :=
  {| random_bits := 20250101;
     mkdtemp := fun _ => inl (External "OSError" "[Errno 28] No space left on device");
     get_device := inr "cuda";
     infer := fun _ => inr ["video_0.mp4"];
     fault_text := fun _ => "" |}.

Definition job_of (job_input : gmap string pyval) : pyval :=
  VDict {[ "input" := VDict job_input ]}.

Definition image (url : string) (start_frame : pyval) : gmap string pyval :=
  <[ "url" := VStr url ]> {[ "start_frame" := start_frame ]}.

Definition input_with (prompt : string) (images : list pyval) : gmap string pyval :=
  <[ "prompt" := VStr prompt ]> {[ "conditioning_images" := VList images ]}.

(** A well-formed job: one conditioning image on frame 0. *)
Definition job_cat : pyval :=
  job_of (input_with "a cat" [VDict (image "https://example.org/cat.png" (VInt 0))]).

(** ** The claims as they are worded *)

(** The handler returns a mapping of exactly one of the two shapes. *)
Definition returns_result (w : world) (job : pyval) : Prop :=
  exists v, outcome w job = Returned v /\ is_result v.

(** [infer] is not called. *)
Definition infer_not_invoked (w : world) (job : pyval) : Prop :=
  forall args, ~ In (CallInfer args) (trace w job).

(** [text] contains [needle]. *)
Fixpoint mentions (needle text : string) : bool :=
  String.prefix needle text ||
  match text with
  | EmptyString => false
  | String _ text' => mentions needle text'
  end.

(** The handler returns an error whose message mentions conditioning
    images, without calling [infer]. *)
Definition conditioning_images_required (w : world) (job : pyval) : Prop :=
  (exists message,
     outcome w job = Returned (error message) /\
     mentions "conditioning image" message = true) /\
  infer_not_invoked w job.

(** Jobs on which the handler lets an exception escape. *)
Definition job_bad_start_frame : pyval :=
  job_of (input_with "a cat"
            [VDict (image "https://example.org/cat.png" (VStr "abc"))]).

Definition job_null_strength : pyval :=
  job_of (input_with "a cat"
            [VDict (<[ "strength" := VNone ]>
                      (image "https://example.org/cat.png" (VInt 0)))]).

(** The handler returns an error that names both [url] and
    [start_frame], without calling [infer]. *)
Definition missing_pair_reported (w : world) (job : pyval) : Prop :=
  (exists message,
     outcome w job = Returned (error message) /\
     mentions "'url'" message = true /\
     mentions "'start_frame'" message = true) /\
  infer_not_invoked w job.

(** Jobs with an entry that lacks its [url] and its [start_frame]. *)
Definition job_empty_entry : pyval := job_of (input_with "a cat" [VDict ∅]).

Definition job_empty_entry_no_prompt : pyval :=
  job_of {[ "conditioning_images" := VList [VDict ∅] ]}.

Definition job_empty_entry_second : pyval :=
  job_of (input_with "a cat"
            [VDict (image "https://example.org/cat.png" (VStr "abc")); VDict ∅]).

Definition job_empty_entry_last : pyval :=
  job_of (input_with "a cat"
            [VDict (image "https://example.org/cat.png" (VInt 0)); VDict ∅]).

(** ** Locating the output *)

(** The names of [listing] that match [pattern], in the order of the
    listing. *)
Definition matching (pattern : string) (listing : list string) : list string :=
  filter (fun name => Is_true (fnmatch pattern name)) listing.

Definition path_in (dir name : string) : string := dir +:+ "/" +:+ name.

(** The result the specification words: the first entry of the listing
    that matches [*.mp4] or [*.png], in directory-listing order. *)
Definition first_match (listing : list string) (dir : string) : pyval :=
  match filter (fun name => Is_true (fnmatch "*.mp4" name || fnmatch "*.png" name))
          listing with
  | [] => error "Inference completed but no output video/image file found."
  | name :: _ => output_video (path_in dir name)
  end.

(** The result the handler builds: the first [*.mp4] entry if there is
    one, otherwise the first [*.png] entry. *)
Definition first_video_then_image (listing : list string) (dir : string) : pyval :=
  match head (matching "*.mp4" listing), head (matching "*.png" listing) with
  | Some name, _ => output_video (path_in dir name)
  | None, Some name => output_video (path_in dir name)
  | None, None => error "Inference completed but no output video/image file found."
  end.

(** ** The call of [infer] *)

(** The arguments [infer] receives for [job_cat] in the worlds above. *)
Definition cat_args : infer_args :=
  {| output_path := "/tmp/ltx_video_output_k3x9";
     seed := 20250101;
     pipeline_config := "configs/ltxv-13b-0.9.7-distilled.yaml";
     image_cond_noise_scale := float_0_15;
     height := 704;
     width := 1216;
     num_frames := 121;
     frame_rate := 30;
     prompt := VStr "a cat";
     negative_prompt :=
       VStr "worst quality, inconsistent motion, blurry, jittery, distorted";
     offload_to_cpu := false;
     input_media_path := VNone;
     conditioning_media_paths := [VStr "https://example.org/cat.png"];
     conditioning_strengths := [float_1_0];
     conditioning_start_frames := [0];
     device_arg := "cuda" |}.

(** The world [w] with another output of the random generator. *)
Definition with_random_bits (w : world) (z : Z) : world :=
  {| random_bits := z;
     mkdtemp := mkdtemp w;
     get_device := get_device w;
     infer := infer w;
     fault_text := fault_text w |}.

(** A numeric field of the input mapping [ji] reaches [infer] as [passed]:
    the default when the field is absent, the supplied value (through
    [int()], which leaves an integer as it is) when it is present. *)
Definition filled (ji : gmap string pyval) (key : string) (dflt : Z) (passed : Z) : Prop :=
  (ji !! key = None -> passed = dflt) /\
  (forall v, ji !! key = Some v -> Py.int v = inr passed) /\
  (forall z, ji !! key = Some (VInt z) -> passed = z).

(** The defaults of lines 30-35, as seen in the call [infer(args)] that
    the handler makes for [job] in the world [w]. *)
Definition defaults_filled (w : world) (job : pyval) (args : infer_args) : Prop :=
  exists j ji,
    job = VDict j /\
    default (VDict ∅) (j !! "input") = VDict ji /\
    filled ji "height" 704 (height args) /\
    filled ji "width" 1216 (width args) /\
    filled ji "num_frames" 121 (num_frames args) /\
    filled ji "frame_rate" 30 (frame_rate args) /\
    (ji !! "negative_prompt" = None ->
     negative_prompt args =
     VStr "worst quality, inconsistent motion, blurry, jittery, distorted") /\
    (forall v, ji !! "negative_prompt" = Some v -> negative_prompt args = v) /\
    (forall v, ji !! "seed" = Some v -> Py.int v = inr (seed args)) /\
    (ji !! "seed" = None ->
     seed args = randint w 0 (2 ^ 32 - 1) /\
     0 <= seed args <= 2 ^ 32 - 1 /\
     forall z, 0 <= z <= 2 ^ 32 - 1 ->
       exists args', In (CallInfer args') (trace (with_random_bits w z) job) /\
                     seed args' = z).

(** [x] is the binary64 number nearest to the fraction [num / den]: a
    positive number [m * 2^e] with [2^52 <= m < 2^53] that is at most half
    a unit in the last place away from it. *)
Definition nearest_double (num den : Z) (x : spec_float) : Prop :=
  match x with
  | S754_finite false m e =>
      e <= 0 /\
      2 ^ 52 <= Zpos m < 2 ^ 53 /\
      2 * Z.abs (den * Zpos m - num * 2 ^ (- e)) <= den
  | _ => False
  end.

(** The fixed arguments of the call [infer(args)] made for [job], the
    noise scale being the float that the literal [0.15] denotes, and its
    three lists: one element per conditioning entry, in the order of the
    input. *)
Definition fixed_arguments (job : pyval) (args : infer_args) : Prop :=
  pipeline_config args = "configs/ltxv-13b-0.9.7-distilled.yaml" /\
  nearest_double 15 100 (image_cond_noise_scale args) /\
  offload_to_cpu args = false /\
  input_media_path args = VNone /\
  exists j ji items,
    job = VDict j /\
    default (VDict ∅) (j !! "input") = VDict ji /\
    default (VList []) (ji !! "conditioning_images") = VList items /\
    length (conditioning_media_paths args) = length items /\
    length (conditioning_strengths args) = length items /\
    length (conditioning_start_frames args) = length items /\
    forall (i : nat) (image_info : pyval),
      items !! i = Some image_info ->
      exists d n x,
        image_info = VDict d /\
        conditioning_media_paths args !! i = Some (url_of d) /\
        conditioning_start_frames args !! i = Some n /\
        Py.int (start_frame_of d) = inr n /\
        conditioning_strengths args !! i = Some x /\
        Py.float (strength_of d) = inr x.

(** ** The trace, call by call *)

(** The external calls made before the [try]: none when the prompt is
    refused (or the job is not a mapping), the draw of line 35 when the
    conditioning images are refused, the draw and the allocation of line 58
    otherwise. *)
Definition early_calls (job : pyval) : list event :=
  match job with
  | VDict j =>
      match default (VDict ∅) (j !! "input") with
      | VDict ji =>
          if negb (truthy (default VNone (ji !! "prompt"))) then []
          else if negb (truthy (default (VList []) (ji !! "conditioning_images")))
          then [CallRandint 0 (2 ^ 32 - 1)]
          else [CallRandint 0 (2 ^ 32 - 1); CallMkdtemp "ltx_video_output_"]
      | _ => []
      end
  | _ => []
  end.

(** What the [except] clause prints, when it catches [e]. *)
Definition failure_log (w : world) (e : exn) : list event :=
  if is_Exception e then
    [Print ("Error during inference: " +:+ str_exn w e); PrintTraceback]
  else [].

(** The calls and prints of the [try] statement. *)
Definition attempt_trace (w : world) (dir : string) (ji : gmap string pyval)
    (ps : list pyval) (ns : list Z) (xs : list spec_float) : list event :=
  match get_device w with
  | inl e => CallGetDevice :: failure_log w e
  | inr _ =>
      CallGetDevice ::
      Print ("Starting inference with output directory: " +:+ dir) ::
      match infer_call w dir ji ps ns xs with
      | inl e => failure_log w e
      | inr args =>
          CallInfer args ::
          match infer w args with
          | inl e => failure_log w e
          | inr listing =>
              match glob listing dir "*.mp4" ++ glob listing dir "*.png" with
              | [] => []
              | output_file_path :: _ =>
                  [Print ("Inference successful. Output file: " +:+ output_file_path)]
              end
          end
      end
  end.

(** The external calls of a trace, without what is printed. *)
Definition is_call (ev : event) : bool :=
  match ev with
  | Print _ | PrintTraceback => false
  | _ => true
  end.

Definition calls (t : list event) : list event :=
  filter (fun ev => Is_true (is_call ev)) t.

(** ** Conversions inside the [try] *)

(** The first of [int(seed)], [int(height)], [int(width)],
    [int(num_frames)] and [int(frame_rate)] that fails, in the order in
    which the call of [infer] evaluates them. *)
Definition conversion_fault (w : world) (ji : gmap string pyval) : option fault :=
  match Py.int (default (VInt (randint w 0 (2 ^ 32 - 1))) (ji !! "seed")) with
  | inl f => Some f
  | inr _ =>
  match Py.int (default (VInt DEFAULT_HEIGHT) (ji !! "height")) with
  | inl f => Some f
  | inr _ =>
  match Py.int (default (VInt DEFAULT_WIDTH) (ji !! "width")) with
  | inl f => Some f
  | inr _ =>
  match Py.int (default (VInt DEFAULT_NUM_FRAMES) (ji !! "num_frames")) with
  | inl f => Some f
  | inr _ =>
  match Py.int (default (VInt DEFAULT_FRAME_RATE) (ji !! "frame_rate")) with
  | inl f => Some f
  | inr _ => None
  end end end end end.

(** ** Entries on which the loop raises *)

(** The entry is not a mapping, or it passes the test of line 69 and
    [int()] refuses its [start_frame], or [int()] accepts it and [float()]
    refuses its [strength]; [f] is the fault raised. *)
Definition refused (image_info : pyval) (f : fault) : Prop :=
  ((forall d, image_info <> VDict d) /\
   f = NoAttribute (type_of image_info) "get") \/
  exists d,
    image_info = VDict d /\
    truthy (url_of d) = true /\
    start_frame_of d <> VNone /\
    (Py.int (start_frame_of d) = inl f \/
     (exists n, Py.int (start_frame_of d) = inr n) /\
     Py.float (strength_of d) = inl f).

(** ** Names of files *)

Definition ends_with (suffix name : string) : Prop :=
  exists stem, name = stem +:+ suffix.


(** Jobs for the further properties. *)
Definition job_urls_as_text : pyval :=
  job_of (input_with "a cat" [VStr "https://example.org/cat.png"]).

Definition job_images_as_text : pyval :=
  job_of (<[ "prompt" := VStr "a cat" ]>
            {[ "conditioning_images" := VStr "https://example.org/cat.png" ]}).

Definition job_null_height : pyval :=
  job_of (<[ "height" := VNone ]>
            (input_with "a cat"
               [VDict (image "https://example.org/cat.png" (VInt 0))])).

Definition job_with_seed : pyval :=
  job_of (<[ "seed" := VInt 42 ]>
            (input_with "a cat"
               [VDict (image "https://example.org/cat.png" (VInt 0))])).

(** A pattern without [*]. *)
Fixpoint literal (pattern : string) : bool :=
  match pattern with
  | EmptyString => true
  | String c p => negb (bool_decide (c = "*"%char)) && literal p
  end.

(** A world without a usable device. *)
Definition world_without_device : world :=
  {| random_bits := 20250101;
     mkdtemp := fun prefix => inr ("/tmp/" +:+ prefix +:+ "k3x9");
     get_device := inl (External "RuntimeError" "No CUDA GPUs are available");
     infer := fun _ => inr ["video_0.mp4"];
     fault_text := fun _ => "" |}.

(** ** Exceptions of the collaborators *)

(** [infer] or [get_device] is called for [job] and raises [e]. *)
Definition raised_in_try (w : world) (job : pyval) (e : exn) : Prop :=
  (exists args, In (CallInfer args) (trace w job) /\ infer w args = inl e) \/
  (In CallGetDevice (trace w job) /\ get_device w = inl e).

(** The handler answers with the error of line 141. *)
Definition failure_reported (w : world) (job : pyval) (e : exn) : Prop :=
  outcome w job = Returned (error ("Inference failed: " +:+ str_exn w e)).

(** ** Fields that are present *)

(** The float that the JSON number [1216.9] denotes. *)
Definition float_1216_9 : spec_float := S754_finite false 5351982799362458 (-42).

(** An input whose [height] is the text [720] and whose [width] is the
    number [1216.9], and the arguments [infer] receives for it. *)
Definition input_converted : gmap string pyval :=
  <[ "height" := VStr "720" ]>
    (<[ "width" := VFloat float_1216_9 ]>
       (input_with "a cat"
          [VDict (image "https://example.org/cat.png" (VInt 0))])).

Definition args_converted : infer_args :=
  {| output_path := "/tmp/ltx_video_output_k3x9";
     seed := 20250101;
     pipeline_config := "configs/ltxv-13b-0.9.7-distilled.yaml";
     image_cond_noise_scale := float_0_15;
     height := 720;
     width := 1216;
     num_frames := 121;
     frame_rate := 30;
     prompt := VStr "a cat";
     negative_prompt :=
       VStr "worst quality, inconsistent motion, blurry, jittery, distorted";
     offload_to_cpu := false;
     input_media_path := VNone;
     conditioning_media_paths := [VStr "https://example.org/cat.png"];
     conditioning_strengths := [float_1_0];
     conditioning_start_frames := [0];
     device_arg := "cuda" |}.

(** As the claim words it: a numeric field that is present reaches
    [infer] with the value supplied. *)
Definition passed_as_supplied (ji : gmap string pyval) (key : string)
    (passed : Z) : Prop :=
  forall v, ji !! key = Some v -> v = VInt passed.

Definition fields_passed_as_supplied (ji : gmap string pyval)
    (args : infer_args) : Prop :=
  passed_as_supplied ji "height" (height args) /\
  passed_as_supplied ji "width" (width args) /\
  passed_as_supplied ji "num_frames" (num_frames args) /\
  passed_as_supplied ji "frame_rate" (frame_rate args) /\
  passed_as_supplied ji "seed" (seed args) /\
  (forall v, ji !! "negative_prompt" = Some v -> negative_prompt args = v).
(** * Properties *)

(** ** Results *)

Lemma error_inj (m1 m2 : string) : error m1 = error m2 -> m1 = m2.
Proof.
  intros H. apply (f_equal (field "error")) in H.
  unfold error, field in H. rewrite !lookup_singleton_eq in H. congruence.
Qed.

Lemma output_video_inj (p1 p2 : string) :
  output_video p1 = output_video p2 -> p1 = p2.
Proof.
  intros H. apply (f_equal (field "output_video")) in H.
  unfold output_video, field in H. rewrite !lookup_singleton_eq in H.
  congruence.
Qed.

Lemma error_not_output_video (m p : string) : error m <> output_video p.
Proof.
  intros H. apply (f_equal (field "error")) in H.
  unfold error, output_video, field in H.
  rewrite lookup_singleton_eq in H.
  rewrite lookup_singleton_ne in H by discriminate. discriminate.
Qed.

Lemma error_is_result (m : string) : is_result (error m).
Proof.
  left. split; [by exists m|]. intros [p Hp].
  by apply error_not_output_video in Hp.
Qed.

Lemma output_video_is_result (p : string) : is_result (output_video p).
Proof.
  right. split; [by exists p|]. intros [m Hm].
  symmetry in Hm. by apply error_not_output_video in Hm.
Qed.

(** Two results with different messages are different. *)
Ltac different_results :=
  let H := fresh in
  intros H;
  first
    [ discriminate H
    | match type of H with
      | Returned (error _) = Returned (error _) =>
          assert (error_eq : forall a b, Returned (error a) = Returned (error b) -> a = b)
            by (intros ? ? ?; apply error_inj; congruence);
          apply error_eq in H; cbn in H; discriminate H
      | Returned (output_video _) = Returned (error _) =>
          assert (shape_eq : forall a b, Returned (output_video a) = Returned (error b) -> False)
            by (intros a b ?; apply (error_not_output_video b a); congruence);
          by apply shape_eq in H
      end ].

(** ** Equations of the monad *)

Lemma after_nil {A} (m : M A) : after [] m = m.
Proof. by destruct m. Qed.

Lemma after_after {A} (t1 t2 : list event) (m : M A) :
  after t1 (after t2 m) = after (t1 ++ t2) m.
Proof. unfold after; cbn [fst snd]. by rewrite (assoc_L (++)). Qed.

Lemma bind_run_inr {A B} (a : A) (k : A -> M B) : bind (run (inr a)) k = k a.
Proof. unfold bind, run, ret. by destruct (k a). Qed.

Lemma bind_run_inl {A B} (f : fault) (k : A -> M B) :
  bind (run (inl f)) k = raise (Builtin f).
Proof. reflexivity. Qed.

Lemma bind_emit {B} (ev : event) (k : unit -> M B) :
  bind (emit ev) k = after [ev] (k tt).
Proof. unfold bind, emit, after. by destruct (k tt). Qed.

Lemma bind_call_inr {A B} (ev : event) (a : A) (k : A -> M B) :
  bind (call ev (inr a)) k = after [ev] (k a).
Proof. unfold call, bind, emit, ret, after; simpl. by destruct (k a). Qed.

Lemma bind_call_inl {A B} (ev : event) (e : exn) (k : A -> M B) :
  bind (call ev (inl e)) k = (inl (Raised e), [ev]).
Proof. reflexivity. Qed.

Lemma bind_after {A B} (evs : list event) (m : M A) (k : A -> M B) :
  bind (after evs m) k = after evs (bind m k).
Proof.
  destruct m as [[x|a] t]; unfold after, bind; cbn [fst snd]; [done|].
  destruct (k a). cbn [fst snd]. by rewrite (assoc_L (++)).
Qed.

Lemma try_except_after {A} (evs : list event) (m : M A) (h : exn -> M A) :
  try_except (after evs m) h = after evs (try_except m h).
Proof.
  destruct m as [[[v|e]|a] t]; unfold after, try_except; cbn [fst snd];
    try done.
  destruct (is_Exception e); [|done].
  destruct (h e). cbn [fst snd]. by rewrite (assoc_L (++)).
Qed.

Lemma bind_return {A B} (v : pyval) (k : A -> M B) :
  bind (return_ v) k = return_ v.
Proof. reflexivity. Qed.

Lemma bind_raise {A B} (e : exn) (k : A -> M B) : bind (raise e) k = raise e.
Proof. reflexivity. Qed.

Create Rewrite HintDb py.
#[local] Hint Rewrite @bind_run_inr @bind_run_inl @bind_emit @bind_call_inr
  @bind_call_inl @bind_after @try_except_after @bind_return @bind_raise
  @after_after @after_nil : py.

(** ** The loop over the conditioning entries *)

Lemma conditioning_loop_cons (image_info : pyval) (rest : list pyval)
    (ps : list pyval) (ns : list Z) (xs : list spec_float) :
  conditioning_loop (image_info :: rest) ps ns xs =
  match round image_info with
  | inl x => (inl x, [])
  | inr (url, n, x) => conditioning_loop rest (ps ++ [url]) (ns ++ [n]) (xs ++ [x])
  end.
Proof.
  destruct image_info as [| | | | | |d]; try reflexivity.
  cbn [conditioning_loop Py.get round]. autorewrite with py.
  destruct (negb (truthy (default VNone (d !! "url"))) ||
            is_None (default VNone (d !! "start_frame"))); [reflexivity|].
  destruct (Py.int (default VNone (d !! "start_frame"))) as [f|n];
    autorewrite with py; [reflexivity|].
  destruct (Py.float (default (VFloat float_1_0) (d !! "strength"))) as [f|x];
    autorewrite with py; reflexivity.
Qed.

(** The loop makes no external call. *)
Lemma conditioning_loop_silent (items : list pyval) :
  forall ps ns xs, snd (conditioning_loop items ps ns xs) = [].
Proof.
  induction items as [|image_info rest IH]; intros ps ns xs; [reflexivity|].
  rewrite conditioning_loop_cons.
  destruct (round image_info) as [x|[[url n] x]]; [reflexivity|apply IH].
Qed.

(** When the loop runs to its end, every entry went through a round and
    contributed its triple, in order. *)
Lemma conditioning_loop_inr (items : list pyval) :
  forall ps ns xs ps' ns' xs',
    fst (conditioning_loop items ps ns xs) = inr (ps', ns', xs') ->
    exists triples,
      Forall2 (fun image_info t => round image_info = inr t) items triples /\
      ps' = ps ++ triples.*1.*1 /\
      ns' = ns ++ triples.*1.*2 /\
      xs' = xs ++ triples.*2.
Proof.
  induction items as [|image_info rest IH]; intros ps ns xs ps' ns' xs' H.
  - exists []. cbn in H. injection H as <- <- <-.
    rewrite !app_nil_r. by repeat split.
  - rewrite conditioning_loop_cons in H.
    destruct (round image_info) as [x|[[url n] x]] eqn:E; [discriminate|].
    apply IH in H as (triples & HF & -> & -> & ->).
    exists ((url, n, x) :: triples). cbn. rewrite <- !(assoc_L (++)).
    by repeat split; [constructor|..].
Qed.

(** When it does not, it is because some round left the function. *)
Lemma conditioning_loop_inl (items : list pyval) :
  forall ps ns xs x,
    fst (conditioning_loop items ps ns xs) = inl x ->
    exists image_info, In image_info items /\ round image_info = inl x.
Proof.
  induction items as [|image_info rest IH]; intros ps ns xs x H; [discriminate|].
  rewrite conditioning_loop_cons in H.
  destruct (round image_info) as [y|[[url n] y]] eqn:E.
  - exists image_info. split; [by left|]. cbn in H. congruence.
  - apply IH in H as (i & Hi & Hr). exists i. split; [by right|done].
Qed.

(** Conversely, rounds that all go through let the loop run to its end. *)
Lemma conditioning_loop_complete (items : list pyval) :
  forall triples ps ns xs,
    Forall2 (fun image_info t => round image_info = inr t) items triples ->
    conditioning_loop items ps ns xs =
    ret (ps ++ triples.*1.*1, ns ++ triples.*1.*2, xs ++ triples.*2).
Proof.
  induction items as [|image_info rest IH]; intros triples ps ns xs HF.
  - inversion HF; subst. cbn. by rewrite !app_nil_r.
  - inversion HF as [|? t ? triples' Hr HF']; subst.
    rewrite conditioning_loop_cons, Hr. destruct t as [[url n] x].
    rewrite (IH triples') by done. cbn. by rewrite <- !(assoc_L (++)).
Qed.

Lemma round_missing (image_info : pyval) :
  missing_pair image_info ->
  round image_info =
  inl (Returned (error "Each conditioning image must have a 'url' and 'start_frame'.")).
Proof.
  intros (d & -> & H). unfold url_of, start_frame_of in H. cbn [round].
  destruct H as [->| ->]; [done|]. by rewrite orb_true_r.
Qed.

Lemma round_contributes (image_info : pyval) (t : pyval * Z * spec_float) :
  contributes image_info t <-> round image_info = inr t.
Proof.
  destruct t as [[url n] x]. split.
  - intros (d & -> & Hu & Eu & Hn & Hx). cbn [fst snd] in *.
    unfold url_of, start_frame_of, strength_of in *. cbn [round].
    rewrite Hu, Hn, Hx, Eu.
    by destruct (default VNone (d !! "start_frame")).
  - destruct image_info as [| | | | | |d]; try discriminate. cbn [round].
    destruct (truthy (default VNone (d !! "url"))) eqn:Hu; [|discriminate].
    destruct (is_None (default VNone (d !! "start_frame"))); [discriminate|].
    cbn [negb orb].
    destruct (Py.int (default VNone (d !! "start_frame"))) as [f|n'] eqn:Hn;
      [discriminate|].
    destruct (Py.float (default (VFloat float_1_0) (d !! "strength")))
      as [f|x'] eqn:Hx; [discriminate|].
    intros [= <- <- <-]. by exists d.
Qed.

(** A round leaves the function by [return] only with the message of
    line 70. *)
Lemma round_returned (image_info : pyval) (v : pyval) :
  round image_info = inl (Returned v) ->
  v = error "Each conditioning image must have a 'url' and 'start_frame'." /\
  missing_pair image_info.
Proof.
  destruct image_info as [| | | | | |d]; try discriminate. cbn [round].
  destruct (truthy (default VNone (d !! "url"))) eqn:Hu; cbn [negb orb].
  - destruct (default VNone (d !! "start_frame")) eqn:Hs; cbn [is_None];
      try (destruct (Py.int _); [discriminate|];
           destruct (Py.float _); discriminate).
    intros [= <-]. split; [done|]. exists d. split; [done|]. by right.
  - intros [= <-]. split; [done|]. exists d. split; [done|]. by left.
Qed.

(** A truthy value that can be iterated has a first element. *)
Lemma iter_truthy (v : pyval) (items : list pyval) :
  truthy v = true -> Py.iter v = inr items -> items <> [].
Proof.
  destruct v as [| | | |s|l|d]; try discriminate; cbn; intros Ht [= <-].
  - by destruct s.
  - by destruct l.
  - apply negb_true_iff, bool_decide_eq_false in Ht.
    intros H. apply fmap_nil_inv, fmap_nil_inv in H.
    by apply map_to_list_empty_iff in H.
Qed.

(** ** The handler in two stages

    The handler is [validate] followed by [attempt]; the calls made before
    the [try] are those of [random.randint] and [tempfile.mkdtemp]. *)

Lemma handler_stages (w : world) (job : pyval) :
  exists t, Forall early t /\
    handler w job =
    after t match validate w job with
            | inl x => (inl x, [])
            | inr (dir, ji, (ps, ns, xs)) => attempt w dir ji ps ns xs
            end.
Proof.
  assert (E1 : early (CallRandint 0 (2 ^ 32 - 1))) by by left.
  assert (E2 : early (CallMkdtemp "ltx_video_output_")) by by right.
  unfold handler, validate.
  destruct job as [| | | | | |j]; try (by exists []).
  cbn [Py.get]. autorewrite with py.
  destruct (default (VDict ∅) (j !! "input")) as [| | | | | |ji];
    try (by exists []).
  cbn [Py.get]. autorewrite with py.
  destruct (negb (truthy (default VNone (ji !! "prompt")))); [by exists []|].
  autorewrite with py.
  destruct (negb (truthy (default (VList []) (ji !! "conditioning_images")))).
  { exists [CallRandint 0 (2 ^ 32 - 1)]. split; [by repeat constructor|done]. }
  destruct (mkdtemp w "ltx_video_output_") as [e|dir]; autorewrite with py.
  { exists [CallRandint 0 (2 ^ 32 - 1); CallMkdtemp "ltx_video_output_"].
    split; [by repeat constructor|done]. }
  exists [CallRandint 0 (2 ^ 32 - 1); CallMkdtemp "ltx_video_output_"].
  split; [by repeat constructor|]. f_equal.
  destruct (Py.iter (default (VList []) (ji !! "conditioning_images")))
    as [f|items]; autorewrite with py; [done|].
  pose proof (conditioning_loop_silent items [] [] []) as Hs.
  destruct (conditioning_loop items [] [] []) as [[x|[[ps ns] xs]] t];
    cbn [fst snd] in *; subst t; [done|].
  unfold bind at 1. cbn [app].
  destruct (negb (truthy (VList ps))); [done|].
  unfold attempt, NEGATIVE_PROMPT.
  by destruct (try_except _ _).
Qed.

(** Membership of an event in an explicit trace. *)
Ltac trace_facts :=
  repeat split;
  [ tauto
  | intros H; repeat destruct H as [H|H];
    try discriminate; try contradiction; congruence
  | intros H; first [discriminate | injection H as <-; tauto] ].

Lemma attempt_spec (w : world) (dir : string) (ji : gmap string pyval)
    (ps : list pyval) (ns : list Z) (xs : list spec_float) :
  fst (attempt w dir ji ps ns xs) = inl (attempt_result w dir ji ps ns xs) /\
  In CallGetDevice (snd (attempt w dir ji ps ns xs)) /\
  forall args, In (CallInfer args) (snd (attempt w dir ji ps ns xs)) <->
               infer_call w dir ji ps ns xs = inr args.
Proof.
  unfold attempt, attempt_result, infer_call, run_inference, caught.
  destruct (get_device w) as [e|dev]; autorewrite with py;
    [cbn; destruct (is_Exception e); cbn; trace_facts|].
  repeat match goal with
  | |- context [Py.int ?v] =>
      destruct (Py.int v) as [?f|?n]; autorewrite with py; [cbn; trace_facts|]
  end.
  match goal with |- context [infer w ?a] => set (a0 := a) end.
  destruct (infer w a0) as [e|listing] eqn:E; autorewrite with py;
    [cbn; destruct (is_Exception e); cbn; trace_facts|].
  unfold located.
  destruct (glob listing dir "*.mp4" ++ glob listing dir "*.png") as [|p rest];
    autorewrite with py; cbn; trace_facts.
Qed.

Lemma outcome_spec (w : world) (job : pyval) :
  outcome w job =
  match validate w job with
  | inl x => x
  | inr (dir, ji, (ps, ns, xs)) => attempt_result w dir ji ps ns xs
  end.
Proof.
  unfold outcome. destruct (handler_stages w job) as (t & _ & ->).
  cbn [after fst].
  destruct (validate w job) as [x|[[dir ji] [[ps ns] xs]]]; [done|].
  by rewrite (proj1 (attempt_spec w dir ji ps ns xs)).
Qed.

Lemma infer_called (w : world) (job : pyval) (args : infer_args) :
  In (CallInfer args) (trace w job) <->
  exists dir ji ps ns xs,
    validate w job = inr (dir, ji, (ps, ns, xs)) /\
    infer_call w dir ji ps ns xs = inr args.
Proof.
  unfold trace. destruct (handler_stages w job) as (t & Ht & ->).
  cbn [after snd]. rewrite in_app_iff.
  assert (Hno : ~ In (CallInfer args) t).
  { intros Hin. rewrite Forall_forall in Ht.
    apply list_elem_of_In, Ht in Hin. by destruct Hin. }
  destruct (validate w job) as [x|[[dir ji] [[ps ns] xs]]].
  - split; [intros [?|[]]; tauto|]. by intros (? & ? & ? & ? & ? & ? & ?).
  - rewrite (proj2 (proj2 (attempt_spec w dir ji ps ns xs)) args). split.
    + intros [?|H]; [tauto|]. by exists dir, ji, ps, ns, xs.
    + intros (? & ? & ? & ? & ? & [= <- <- <- <- <-] & H). by right.
Qed.

Lemma get_device_called (w : world) (job : pyval) :
  In CallGetDevice (trace w job) <-> exists v, validate w job = inr v.
Proof.
  unfold trace. destruct (handler_stages w job) as (t & Ht & ->).
  cbn [after snd]. rewrite in_app_iff.
  assert (Hno : ~ In CallGetDevice t).
  { intros Hin. rewrite Forall_forall in Ht.
    apply list_elem_of_In, Ht in Hin. by destruct Hin. }
  destruct (validate w job) as [x|[[dir ji] [[ps ns] xs]]].
  - split; [intros [?|[]]; tauto|]. by intros (? & ?).
  - split; [by eexists|]. intros _. right.
    apply (attempt_spec w dir ji ps ns xs).
Qed.

(** What is known when the validation stage lets a job through. *)
Lemma validate_inr (w : world) (job : pyval) (dir : string)
    (ji : gmap string pyval) (ps : list pyval) (ns : list Z)
    (xs : list spec_float) :
  validate w job = inr (dir, ji, (ps, ns, xs)) ->
  exists j items triples,
    job = VDict j /\
    default (VDict ∅) (j !! "input") = VDict ji /\
    truthy (default VNone (ji !! "prompt")) = true /\
    default (VList []) (ji !! "conditioning_images") = VList items /\
    items <> [] /\
    mkdtemp w "ltx_video_output_" = inr dir /\
    Forall2 (fun image_info t => round image_info = inr t) items triples /\
    ps = triples.*1.*1 /\ ns = triples.*1.*2 /\ xs = triples.*2.
Proof.
  unfold validate. intros H.
  destruct job as [| | | | | |j]; try discriminate.
  destruct (default (VDict ∅) (j !! "input")) as [| | | | | |ji'] eqn:Ei;
    try discriminate.
  destruct (truthy (default VNone (ji' !! "prompt"))) eqn:Ep;
    cbn [negb] in H; [|discriminate].
  destruct (truthy (default (VList []) (ji' !! "conditioning_images"))) eqn:Ec;
    cbn [negb] in H; [|discriminate].
  destruct (mkdtemp w "ltx_video_output_") as [e|dir'] eqn:Em; [discriminate|].
  destruct (Py.iter (default (VList []) (ji' !! "conditioning_images")))
    as [f|items] eqn:Et; [discriminate|].
  destruct (fst (conditioning_loop items [] [] [])) as [x|[[ps' ns'] xs']] eqn:El;
    [discriminate|].
  destruct (negb (truthy (VList ps'))); [discriminate|].
  injection H as <- <- <- <- <-.
  apply conditioning_loop_inr in El as (triples & HF & -> & -> & ->).
  pose proof (iter_truthy _ _ Ec Et) as Hne.
  exists j, items, triples. repeat split; try done.
  destruct (default (VList []) (ji' !! "conditioning_images"))
    as [| | | |s|l|d]; try discriminate; cbn in Et; injection Et as <-.
  - destruct s as [|c s]; [done|]. by inversion HF.
  - done.
  - destruct (map_to_list d) as [|[k v] rest]; [done|]. by inversion HF.
Qed.

(** No call of [infer] when the validation stage leaves the function. *)
Lemma validate_inl_not_invoked (w : world) (job : pyval) (x : exit) :
  validate w job = inl x -> infer_not_invoked w job.
Proof.
  intros H args Hin. apply infer_called in Hin as (? & ? & ? & ? & ? & Hv & _).
  congruence.
Qed.

(** The validation stage returns nothing but errors. *)
Lemma validate_returned (w : world) (job : pyval) (v : pyval) :
  validate w job = inl (Returned v) -> is_error v.
Proof.
  unfold validate.
  destruct job as [| | | | | |j]; try discriminate.
  destruct (default (VDict ∅) (j !! "input")) as [| | | | | |ji];
    try discriminate.
  destruct (negb _); [intros [= <-]; by eexists|].
  destruct (negb _); [intros [= <-]; by eexists|].
  destruct (mkdtemp w _); [discriminate|].
  destruct (Py.iter _) as [f|items]; [discriminate|].
  destruct (fst (conditioning_loop items [] [] [])) as [x|[[ps ns] xs]] eqn:El.
  - intros [= ->]. apply conditioning_loop_inl in El as (i & _ & Hr).
    apply round_returned in Hr as [-> _]. by eexists.
  - destruct (negb _); [intros [= <-]; by eexists|discriminate].
Qed.

(** ** What is known when [infer] is called *)

Lemma infer_call_inr (w : world) (dir : string) (ji : gmap string pyval)
    (ps : list pyval) (ns : list Z) (xs : list spec_float) (args : infer_args) :
  infer_call w dir ji ps ns xs = inr args ->
  get_device w = inr (device_arg args) /\
  Py.int (default (VInt (randint w 0 (2 ^ 32 - 1))) (ji !! "seed")) = inr (seed args) /\
  Py.int (default (VInt DEFAULT_HEIGHT) (ji !! "height")) = inr (height args) /\
  Py.int (default (VInt DEFAULT_WIDTH) (ji !! "width")) = inr (width args) /\
  Py.int (default (VInt DEFAULT_NUM_FRAMES) (ji !! "num_frames")) = inr (num_frames args) /\
  Py.int (default (VInt DEFAULT_FRAME_RATE) (ji !! "frame_rate")) = inr (frame_rate args) /\
  output_path args = dir /\
  pipeline_config args = DEFAULT_MODEL_CONFIG /\
  image_cond_noise_scale args = float_0_15 /\
  prompt args = default VNone (ji !! "prompt") /\
  negative_prompt args = default (VStr NEGATIVE_PROMPT) (ji !! "negative_prompt") /\
  offload_to_cpu args = false /\
  input_media_path args = VNone /\
  conditioning_media_paths args = ps /\
  conditioning_strengths args = xs /\
  conditioning_start_frames args = ns.
Proof.
  unfold infer_call.
  destruct (get_device w) as [e|dev]; [discriminate|].
  repeat match goal with
  | |- context [match Py.int ?v with _ => _ end] =>
      destruct (Py.int v) as [?f|?n]; [discriminate|]
  end.
  intros [= <-]. by repeat split.
Qed.

(** The job behind a call of [infer], and the lists passed to it. *)
Lemma infer_called_inv (w : world) (job : pyval) (args : infer_args) :
  In (CallInfer args) (trace w job) ->
  exists j ji items triples,
    job = VDict j /\
    default (VDict ∅) (j !! "input") = VDict ji /\
    truthy (default VNone (ji !! "prompt")) = true /\
    default (VList []) (ji !! "conditioning_images") = VList items /\
    items <> [] /\
    mkdtemp w "ltx_video_output_" = inr (output_path args) /\
    infer_call w (output_path args) ji triples.*1.*1 triples.*1.*2 triples.*2 = inr args /\
    validate w job =
      inr (output_path args, ji, (triples.*1.*1, triples.*1.*2, triples.*2)) /\
    Forall2 contributes items triples.
Proof.
  intros H. apply infer_called in H as (dir & ji & ps & ns & xs & Hv & Hc).
  pose proof (infer_call_inr _ _ _ _ _ _ _ Hc) as Hf.
  destruct Hf as (_ & _ & _ & _ & _ & _ & Hd & _). subst dir.
  pose proof Hv as Hv'.
  apply validate_inr in Hv'
    as (j & items & triples & -> & Hi & Hp & Hl & Hne & Hm & HF & -> & -> & ->).
  exists j, ji, items, triples. repeat split; try done.
  eapply Forall2_impl; [exact HF|]. intros x t Ht. by apply round_contributes.
Qed.

Lemma outcome_after_infer (w : world) (job : pyval) (args : infer_args) :
  In (CallInfer args) (trace w job) ->
  outcome w job =
  match infer w args with
  | inl e => caught w e
  | inr listing => Returned (located listing (output_path args))
  end.
Proof.
  intros H. apply infer_called_inv in H
    as (j & ji & items & triples & -> & _ & _ & _ & _ & _ & Hc & Hv & _).
  rewrite outcome_spec, Hv. unfold attempt_result. by rewrite Hc.
Qed.

Lemma filled_intro (ji : gmap string pyval) (key : string) (dflt passed : Z) :
  Py.int (default (VInt dflt) (ji !! key)) = inr passed ->
  filled ji key dflt passed.
Proof.
  intros H. repeat split.
  - intros Hk. rewrite Hk in H. cbn in H. congruence.
  - intros v Hk. by rewrite Hk in H.
  - intros z Hk. rewrite Hk in H. cbn in H. congruence.
Qed.

Lemma randint_range (w : world) (a b : Z) :
  a <= b -> a <= randint w a b <= b.
Proof.
  intros H. unfold randint.
  pose proof (Z.mod_pos_bound (random_bits w) (b - a + 1)). lia.
Qed.

Lemma randint_with_random_bits (w : world) (z : Z) :
  0 <= z <= 2 ^ 32 - 1 -> randint (with_random_bits w z) 0 (2 ^ 32 - 1) = z.
Proof.
  intros H. unfold randint. cbn [random_bits with_random_bits].
  rewrite Z.mod_small; lia.
Qed.

Lemma validate_with_random_bits (w : world) (z : Z) (job : pyval) :
  validate (with_random_bits w z) job = validate w job.
Proof. reflexivity. Qed.

(** ** Results of the [try] statement *)

Lemma located_is_result (listing : list string) (dir : string) :
  is_result (located listing dir).
Proof.
  unfold located.
  destruct (glob listing dir "*.mp4" ++ glob listing dir "*.png");
    [apply error_is_result|apply output_video_is_result].
Qed.

Lemma caught_is_result (w : world) (e : exn) (v : pyval) :
  caught w e = Returned v -> is_result v.
Proof.
  unfold caught, failed. destruct (is_Exception e); [|discriminate].
  intros [= <-]. apply error_is_result.
Qed.

Lemma caught_not_output_video (w : world) (e : exn) (path : string) :
  caught w e <> Returned (output_video path).
Proof.
  unfold caught, failed. destruct (is_Exception e); [|discriminate].
  intros H.
  assert (H' : error ("Inference failed: " +:+ str_exn w e) = output_video path)
    by congruence.
  by apply error_not_output_video in H'.
Qed.

Lemma attempt_result_is_result (w : world) (dir : string)
    (ji : gmap string pyval) (ps : list pyval) (ns : list Z)
    (xs : list spec_float) (v : pyval) :
  attempt_result w dir ji ps ns xs = Returned v -> is_result v.
Proof.
  unfold attempt_result.
  destruct (infer_call w dir ji ps ns xs) as [e|args];
    [apply caught_is_result|].
  destruct (infer w args); [apply caught_is_result|].
  intros [= <-]. apply located_is_result.
Qed.

(** An exception escapes from the [try] statement only if [get_device] or
    [infer] raised it and it is not an instance of [Exception]. *)
Lemma attempt_result_raised (w : world) (dir : string)
    (ji : gmap string pyval) (ps : list pyval) (ns : list Z)
    (xs : list spec_float) (e : exn) :
  attempt_result w dir ji ps ns xs = Raised e ->
  is_Exception e = false /\
  (get_device w = inl e \/ exists args, infer w args = inl e).
Proof.
  unfold attempt_result, caught.
  destruct (infer_call w dir ji ps ns xs) as [e'|args] eqn:Ec.
  - destruct (is_Exception e') eqn:He; [discriminate|]. intros [= <-].
    split; [done|]. left. revert Ec He. unfold infer_call.
    destruct (get_device w) as [e0|dev]; [by intros [= ->]|].
    repeat match goal with
    | |- context [match Py.int ?v with _ => _ end] =>
        destruct (Py.int v) as [?f|?n]; [by intros [= <-]|]
    end.
    discriminate.
  - destruct (infer w args) as [e'|listing] eqn:Ei; [|discriminate].
    destruct (is_Exception e') eqn:He; [discriminate|]. intros [= <-].
    split; [done|]. right. by exists args.
Qed.

Lemma located_first_video_then_image (listing : list string) (dir : string) :
  located listing dir = first_video_then_image listing dir.
Proof.
  unfold located, first_video_then_image, glob, matching, path_in.
  destruct (filter _ listing) as [|v vs]; cbn; [|done].
  by destruct (filter _ listing) as [|i rest].
Qed.

(** ** The float literals

    The two literals of [handler.py], against the fractions they denote. *)

Lemma float_0_15_nearest : nearest_double 15 100 float_0_15.
Proof. unfold nearest_double, float_0_15. lia. Qed.

Lemma float_1_0_nearest : nearest_double 1 1 float_1_0.
Proof. unfold nearest_double, float_1_0. lia. Qed.

(** ** Checks of the model on concrete inputs *)

Example float_literals :
  float_of_str "0.15" = Some float_0_15 /\
  float_of_str "1.0" = Some float_1_0 /\
  Py.float (VInt 1) = inr float_1_0.
Proof. by vm_compute. Qed.

Example int_examples :
  Py.int (VStr " 12_000 ") = inr 12000 /\
  Py.int (VStr "-7") = inr (-7) /\
  Py.int (VFloat float_0_15) = inr 0 /\
  Py.int (VBool true) = inr 1 /\
  Py.int (VStr "1.5") = inl (IntBadLiteral "1.5") /\
  Py.int VNone = inl (IntBadArgument TNone).
Proof. by vm_compute. Qed.

Example glob_example :
  glob ["a.png"; "b.mp4"; "notes.txt"; "c.mp4.part"; ".mp4"] "/tmp/d" "*.mp4" =
  ["/tmp/d/b.mp4"; "/tmp/d/.mp4"].
Proof. by vm_compute. Qed.

Example job_cat_trace :
  trace (world_writing ["video_0.mp4"]) job_cat =
  [CallRandint 0 4294967295; CallMkdtemp "ltx_video_output_"; CallGetDevice;
   Print "Starting inference with output directory: /tmp/ltx_video_output_k3x9";
   CallInfer cat_args;
   Print "Inference successful. Output file: /tmp/ltx_video_output_k3x9/video_0.mp4"].
Proof. by vm_compute. Qed.

Example job_not_a_mapping :
  outcome (world_writing []) (VList []) = Raised (Builtin (NoAttribute TList "get")).
Proof. by vm_compute. Qed.

(** * The claims *)

(** C1, as worded, fails: the handler lets an exception escape when
    [int()] refuses a [start_frame] (a [ValueError] for the text [abc]),
    when [float()] refuses a [strength] (a [TypeError] for [None]), and
    when [mkdtemp] fails. All three happen before the [try]. *)
Lemma handler_raises :
  ~ returns_result (world_writing ["video_0.mp4"]) job_bad_start_frame /\
  ~ returns_result (world_writing ["video_0.mp4"]) job_null_strength /\
  ~ returns_result world_without_tmp job_cat.
Proof.
  assert (E1 : outcome (world_writing ["video_0.mp4"]) job_bad_start_frame =
               Raised (Builtin (IntBadLiteral "abc"))) by by vm_compute.
  assert (E2 : outcome (world_writing ["video_0.mp4"]) job_null_strength =
               Raised (Builtin (FloatBadArgument TNone))) by by vm_compute.
  assert (E3 : outcome world_without_tmp job_cat =
               Raised (External "OSError" "[Errno 28] No space left on device"))
    by by vm_compute.
  unfold returns_result. repeat split; intros (v & H & _); congruence.
Qed.

(** C1, amended: (1) whatever the handler returns is a mapping of exactly
    one of the shapes [{"output_video": path}] and [{"error": message}].
    (2) Once the [try] is entered, an exception that escapes is not an
    instance of [Exception]: the [except] clause catches every other one.
    (3) The handler does return when the job and its [input] are mappings,
    [get_device] and [infer] raise nothing but instances of [Exception]
    and, in case the prompt and the conditioning images are given, the
    temporary directory is created and [conditioning_images] is a list of
    mappings each of which either lacks its [url] or [start_frame] or has a
    [start_frame] accepted by [int()] and a [strength] accepted by
    [float()]. *)
Theorem handler_returns_result :
  (forall (w : world) (job : pyval) (v : pyval),
     outcome w job = Returned v -> is_result v) /\
  (forall (w : world) (job : pyval) (e : exn),
     outcome w job = Raised e ->
     In CallGetDevice (trace w job) ->
     is_Exception e = false) /\
  (forall (w : world) (j ji : gmap string pyval),
     default (VDict ∅) (j !! "input") = VDict ji ->
     (truthy (default VNone (ji !! "prompt")) = true ->
      truthy (default (VList []) (ji !! "conditioning_images")) = true ->
      (exists dir, mkdtemp w "ltx_video_output_" = inr dir) /\
      exists items,
        default (VList []) (ji !! "conditioning_images") = VList items /\
        Forall (fun image_info => missing_pair image_info \/ well_formed image_info)
          items) ->
     (forall e, get_device w = inl e -> is_Exception e = true) ->
     (forall args e, infer w args = inl e -> is_Exception e = true) ->
     returns_result w (VDict j)).
Proof.
  assert (Hres : forall w job v, outcome w job = Returned v -> is_result v).
  { intros w job v. rewrite outcome_spec.
    destruct (validate w job) as [x|[[dir ji] [[ps ns] xs]]] eqn:Ev.
    - intros ->. apply validate_returned in Ev as [message ->].
      apply error_is_result.
    - apply attempt_result_is_result. }
  split; [exact Hres|]. split.
  - intros w job e Ho Hin.
    apply get_device_called in Hin as [[[dir ji] [[ps ns] xs]] Hv].
    rewrite outcome_spec, Hv in Ho.
    by apply attempt_result_raised in Ho as [He _].
  - intros w j ji Hi H Hdev Hinf.
    destruct (outcome w (VDict j)) as [v|e] eqn:Eo;
      [exists v; split; [done|by eapply Hres]|].
    exfalso. revert Eo. rewrite outcome_spec. unfold validate. rewrite Hi.
    destruct (truthy (default VNone (ji !! "prompt"))); cbn [negb]; [|done].
    destruct (truthy (default (VList []) (ji !! "conditioning_images")));
      cbn [negb]; [|done].
    destruct H as ([dir ->] & items & -> & HF); try done. cbn [Py.iter].
    destruct (fst (conditioning_loop items [] [] [])) as [x|[[ps ns] xs]] eqn:El.
    + apply conditioning_loop_inl in El as (image_info & Hin & Hr).
      rewrite Forall_forall in HF.
      apply list_elem_of_In, HF in Hin as [Hm|[t Ht]].
      * rewrite (round_missing _ Hm) in Hr. by injection Hr as <-.
      * apply round_contributes in Ht. congruence.
    + destruct (negb (truthy (VList ps))); [done|].
      intros Ho. apply attempt_result_raised in Ho as [He [Hg|[args Ha]]].
      * apply Hdev in Hg. congruence.
      * apply Hinf in Ha. congruence.
Qed.

Lemma handler_returns_result_witness :
  returns_result (world_writing ["video_0.mp4"]) job_cat.
Proof.
  unfold job_cat, job_of.
  apply (proj2 (proj2 handler_returns_result) (world_writing ["video_0.mp4"])
           {[ "input" := VDict (input_with "a cat"
                [VDict (image "https://example.org/cat.png" (VInt 0))]) ]}
           (input_with "a cat"
              [VDict (image "https://example.org/cat.png" (VInt 0))])).
  - reflexivity.
  - intros _ _. split.
    + exists "/tmp/ltx_video_output_k3x9". reflexivity.
    + exists [VDict (image "https://example.org/cat.png" (VInt 0))].
      split; [reflexivity|].
      constructor; [|constructor]. right.
      exists (VStr "https://example.org/cat.png", 0, float_1_0).
      exists (image "https://example.org/cat.png" (VInt 0)).
      repeat split; reflexivity.
  - discriminate.
  - discriminate.
Defined.

(** C2, as worded, fails: when the directory lists [a.png] before
    [b.mp4], the handler returns the path of [b.mp4], which is not the
    first match in directory-listing order. *)
Lemma listing_order_not_followed :
  outcome (world_writing ["a.png"; "b.mp4"]) job_cat <>
  Returned (first_match ["a.png"; "b.mp4"] "/tmp/ltx_video_output_k3x9").
Proof.
  assert (E1 : outcome (world_writing ["a.png"; "b.mp4"]) job_cat =
               Returned (output_video "/tmp/ltx_video_output_k3x9/b.mp4"))
    by by vm_compute.
  assert (E2 : first_match ["a.png"; "b.mp4"] "/tmp/ltx_video_output_k3x9" =
               output_video "/tmp/ltx_video_output_k3x9/a.png")
    by by vm_compute.
  rewrite E1, E2. intros H.
  assert (H' : output_video "/tmp/ltx_video_output_k3x9/b.mp4" =
               output_video "/tmp/ltx_video_output_k3x9/a.png") by congruence.
  apply output_video_inj in H'. discriminate.
Qed.

(** C2, amended: after [infer] has returned, the handler returns the path
    of the first entry of the output directory that matches [*.mp4], in
    directory-listing order, if there is one, otherwise of the first entry
    that matches [*.png]; only the directory itself is looked at. If the
    directory holds [video_0.mp4] alone the result is the path of that
    file in the directory, and if no entry matches the result is the error
    of line 123. *)
Theorem output_located (w : world) (job : pyval) (args : infer_args)
    (listing : list string) :
  In (CallInfer args) (trace w job) ->
  infer w args = inr listing ->
  outcome w job = Returned (first_video_then_image listing (output_path args)) /\
  (listing = ["video_0.mp4"] ->
   outcome w job =
   Returned (output_video (output_path args +:+ "/video_0.mp4"))) /\
  (matching "*.mp4" listing = [] -> matching "*.png" listing = [] ->
   outcome w job =
   Returned (error "Inference completed but no output video/image file found.")).
Proof.
  intros Hin Hl.
  assert (Ho : outcome w job =
               Returned (first_video_then_image listing (output_path args))).
  { rewrite (outcome_after_infer _ _ _ Hin), Hl.
    by rewrite located_first_video_then_image. }
  rewrite Ho. repeat split.
  - by intros ->.
  - intros Hv Hi. unfold first_video_then_image. by rewrite Hv, Hi.
Qed.

Lemma output_located_witness :
  outcome (world_writing ["video_0.mp4"]) job_cat =
  Returned (output_video "/tmp/ltx_video_output_k3x9/video_0.mp4").
Proof.
  apply (proj1 (proj2 (output_located (world_writing ["video_0.mp4"]) job_cat
                         cat_args ["video_0.mp4"]
                         ltac:(vm_compute; tauto) eq_refl))).
  reflexivity.
Defined.

(** C3: when the [input] mapping of a job has no [prompt] (the mapping may
    itself be absent, it is then taken empty), the handler returns
    [{"error": "Prompt is a required input."}] and does not call [infer]. *)
Theorem prompt_required (w : world) (j : gmap string pyval) :
  (j !! "input" = None \/
   exists ji, j !! "input" = Some (VDict ji) /\ ji !! "prompt" = None) ->
  outcome w (VDict j) = Returned (error "Prompt is a required input.") /\
  infer_not_invoked w (VDict j).
Proof.
  intros H.
  assert (Hv : validate w (VDict j) =
               inl (Returned (error "Prompt is a required input."))).
  { unfold validate. destruct H as [->|(ji & -> & Hp)]; cbn [from_option].
    - by rewrite lookup_empty.
    - cbn. by rewrite Hp. }
  split; [by rewrite outcome_spec, Hv|by eapply validate_inl_not_invoked].
Qed.

Lemma prompt_required_witness :
  outcome (world_writing ["video_0.mp4"])
    (job_of {[ "conditioning_images" :=
                 VList [VDict (image "https://example.org/cat.png" (VInt 0))] ]}) =
  Returned (error "Prompt is a required input.") /\
  infer_not_invoked (world_writing ["video_0.mp4"])
    (job_of {[ "conditioning_images" :=
                 VList [VDict (image "https://example.org/cat.png" (VInt 0))] ]}).
Proof.
  unfold job_of. apply prompt_required. right.
  exists {[ "conditioning_images" :=
              VList [VDict (image "https://example.org/cat.png" (VInt 0))] ]}.
  split; reflexivity.
Defined.

(** C4, as worded, fails: a job with neither prompt nor conditioning
    images is answered [{"error": "Prompt is a required input."}], which
    does not mention conditioning images. *)
Lemma conditioning_images_required_without_prompt :
  ~ conditioning_images_required (world_writing ["video_0.mp4"]) (job_of ∅).
Proof.
  assert (E : outcome (world_writing ["video_0.mp4"]) (job_of ∅) =
              Returned (error "Prompt is a required input.")) by by vm_compute.
  intros [(message & H & Hm) _]. rewrite E in H.
  assert (H' : error "Prompt is a required input." = error message)
    by congruence.
  apply error_inj in H' as <-. vm_compute in Hm. discriminate.
Qed.

(** C4, amended: when the [input] mapping of a job has no
    [conditioning_images], or an empty list, the handler returns an error
    and does not call [infer]; when moreover the prompt is given, the
    error is the one of line 39, which mentions conditioning images. *)
Theorem conditioning_images_required_with_prompt (w : world)
    (j ji : gmap string pyval) :
  default (VDict ∅) (j !! "input") = VDict ji ->
  (ji !! "conditioning_images" = None \/
   ji !! "conditioning_images" = Some (VList [])) ->
  (exists message, outcome w (VDict j) = Returned (error message)) /\
  infer_not_invoked w (VDict j) /\
  (truthy (default VNone (ji !! "prompt")) = true ->
   conditioning_images_required w (VDict j) /\
   outcome w (VDict j) =
   Returned (error "At least one conditioning image (first frame) is required for image-to-video.")).
Proof.
  intros Hi Hc.
  assert (Hv : validate w (VDict j) =
    inl (Returned (error
      (if truthy (default VNone (ji !! "prompt")) then
         "At least one conditioning image (first frame) is required for image-to-video."
       else "Prompt is a required input.")))).
  { unfold validate. rewrite Hi.
    destruct (truthy (default VNone (ji !! "prompt"))); cbn [negb]; [|done].
    by destruct Hc as [-> | ->]. }
  assert (Hn : infer_not_invoked w (VDict j))
    by by eapply validate_inl_not_invoked.
  split; [rewrite outcome_spec, Hv; by eexists|]. split; [done|].
  intros Hp. rewrite Hp in Hv.
  assert (Ho : outcome w (VDict j) =
    Returned (error "At least one conditioning image (first frame) is required for image-to-video."))
    by by rewrite outcome_spec, Hv.
  split; [|done]. split; [|done].
  eexists. split; [exact Ho|]. by vm_compute.
Qed.

Lemma conditioning_images_required_with_prompt_witness :
  conditioning_images_required (world_writing ["video_0.mp4"])
    (job_of (input_with "a cat" [])).
Proof.
  unfold job_of.
  apply (conditioning_images_required_with_prompt
           (world_writing ["video_0.mp4"])
           {[ "input" := VDict (input_with "a cat" []) ]}
           (input_with "a cat" [])).
  - reflexivity.
  - right. reflexivity.
  - reflexivity.
Defined.

(** C5, as worded, fails: a job with an entry lacking both [url] and
    [start_frame] is answered by an exception when the temporary directory
    cannot be created, or when an earlier entry has a [start_frame] that
    [int()] refuses; and without a prompt it is answered
    [{"error": "Prompt is a required input."}]. *)
Lemma missing_pair_not_reported :
  ~ missing_pair_reported world_without_tmp job_empty_entry /\
  ~ missing_pair_reported (world_writing ["video_0.mp4"]) job_empty_entry_second /\
  ~ missing_pair_reported (world_writing ["video_0.mp4"]) job_empty_entry_no_prompt.
Proof.
  assert (E1 : outcome world_without_tmp job_empty_entry =
               Raised (External "OSError" "[Errno 28] No space left on device"))
    by by vm_compute.
  assert (E2 : outcome (world_writing ["video_0.mp4"]) job_empty_entry_second =
               Raised (Builtin (IntBadLiteral "abc"))) by by vm_compute.
  assert (E3 : outcome (world_writing ["video_0.mp4"]) job_empty_entry_no_prompt =
               Returned (error "Prompt is a required input.")) by by vm_compute.
  repeat split; intros [(message & H & Hu & Hs) _]; try congruence.
  rewrite E3 in H.
  assert (H' : error "Prompt is a required input." = error message)
    by congruence.
  apply error_inj in H' as <-. vm_compute in Hu. discriminate.
Qed.

(** C5, amended. (1) When some entry of the list [conditioning_images]
    lacks its [url] or its [start_frame], [infer] is not called and the
    handler does not return an output; when moreover the prompt is given,
    the temporary directory is created and the entries before that one have
    a [url], a [start_frame] accepted by [int()] and a [strength] accepted
    by [float()], the handler returns the error of line 70, which names
    [url] and [start_frame]. (2) Whenever [infer] is
    called, every entry went through the test and contributed its [url],
    [int(start_frame)] and [float(strength)] to the three lists. *)
Theorem missing_pair_rejected :
  (forall (w : world) (j ji : gmap string pyval)
          (good rest : list pyval) (bad : pyval),
     default (VDict ∅) (j !! "input") = VDict ji ->
     default (VList []) (ji !! "conditioning_images") = VList (good ++ bad :: rest) ->
     missing_pair bad ->
     infer_not_invoked w (VDict j) /\
     (forall v, outcome w (VDict j) = Returned v -> ~ is_output_video v) /\
     (truthy (default VNone (ji !! "prompt")) = true ->
      (exists dir, mkdtemp w "ltx_video_output_" = inr dir) ->
      Forall well_formed good ->
      missing_pair_reported w (VDict j) /\
      outcome w (VDict j) =
      Returned (error "Each conditioning image must have a 'url' and 'start_frame'."))) /\
  (forall (w : world) (job : pyval) (args : infer_args),
     In (CallInfer args) (trace w job) ->
     exists j ji items triples,
       job = VDict j /\
       default (VDict ∅) (j !! "input") = VDict ji /\
       default (VList []) (ji !! "conditioning_images") = VList items /\
       Forall2 contributes items triples /\
       conditioning_media_paths args = triples.*1.*1 /\
       conditioning_start_frames args = triples.*1.*2 /\
       conditioning_strengths args = triples.*2).
Proof.
  split.
  - intros w j ji good rest bad Hi Hl Hm.
    assert (Hn : infer_not_invoked w (VDict j)).
    { intros args Hin.
      apply infer_called_inv in Hin
        as (j' & ji' & items & triples & [= <-] & Hi' & _ & Hl' & _ & _ & _ & _ & HF).
      rewrite Hi in Hi'. injection Hi' as <-. rewrite Hl in Hl'.
      injection Hl' as <-.
      apply Forall2_app_inv_l in HF as (t1 & t2 & _ & HF & _).
      inversion HF as [|? t ? ? Hc _]; subst.
      apply round_contributes in Hc. rewrite (round_missing _ Hm) in Hc.
      discriminate. }
    split; [done|]. split.
    + intros v Hv [path ->]. rewrite outcome_spec in Hv.
      destruct (validate w (VDict j)) as [x|[[dir ji'] [[ps ns] xs]]] eqn:Ev.
      * subst x. revert Ev. unfold validate. rewrite Hi, Hl. cbn [Py.iter].
        destruct (negb _); [different_results|].
        destruct (negb _); [different_results|].
        destruct (mkdtemp w _); [different_results|].
        destruct (fst (conditioning_loop _ [] [] [])) as [x|[[ps ns] xs]] eqn:El.
        -- apply conditioning_loop_inl in El as (i & _ & Hr).
           destruct x as [v|e]; [|different_results].
           apply round_returned in Hr as [-> _]. different_results.
        -- destruct (negb _); different_results.
      * unfold attempt_result, located in Hv.
        destruct (infer_call w dir ji' ps ns xs) as [e|args] eqn:Ec;
          [revert Hv; unfold caught, failed; destruct (is_Exception e);
           different_results|].
        exfalso. apply (Hn args). apply infer_called. by exists dir, ji', ps, ns, xs.
    + intros Hp [dir Hd] HF.
      assert (Ho : outcome w (VDict j) =
        Returned (error "Each conditioning image must have a 'url' and 'start_frame'.")).
      { rewrite outcome_spec. unfold validate.
        rewrite Hi, Hp, Hl, Hd. cbn [negb Py.iter].
        assert (Ht : exists triples,
          Forall2 (fun image_info t => round image_info = inr t) good triples).
        { clear -HF. induction HF as [|x l [t Hx] _ [ts IH]]; [by exists []|].
          exists (t :: ts). constructor; [by apply round_contributes|done]. }
        destruct Ht as [triples Ht].
        assert (El : forall ps ns xs,
          conditioning_loop (good ++ bad :: rest) ps ns xs =
          (inl (Returned (error "Each conditioning image must have a 'url' and 'start_frame'.")), [])).
        { clear -Ht Hm. induction Ht as [|x t l ts Hx _ IH]; intros ps ns xs.
          - cbn [app]. by rewrite conditioning_loop_cons, (round_missing _ Hm).
          - cbn [app]. rewrite conditioning_loop_cons, Hx.
            destruct t as [[url n] y]. apply IH. }
        rewrite El. by destruct good. }
      split; [|done]. split; [|done].
      eexists. split; [exact Ho|]. split; by vm_compute.
  - intros w job args Hin.
    apply infer_called_inv in Hin
      as (j & ji & items & triples & -> & Hi & _ & Hl & _ & _ & Hc & _ & HF).
    apply infer_call_inr in Hc.
    exists j, ji, items, triples. repeat split; try done; apply Hc.
Qed.

Lemma missing_pair_rejected_witness :
  missing_pair_reported (world_writing ["video_0.mp4"]) job_empty_entry_last.
Proof.
  unfold job_empty_entry_last, job_of.
  apply (proj1 missing_pair_rejected (world_writing ["video_0.mp4"])
           {[ "input" := VDict (input_with "a cat"
                [VDict (image "https://example.org/cat.png" (VInt 0)); VDict ∅]) ]}
           (input_with "a cat"
              [VDict (image "https://example.org/cat.png" (VInt 0)); VDict ∅])
           [VDict (image "https://example.org/cat.png" (VInt 0))] [] (VDict ∅)).
  - reflexivity.
  - reflexivity.
  - exists ∅. split; [reflexivity|]. left. reflexivity.
  - reflexivity.
  - exists "/tmp/ltx_video_output_k3x9". reflexivity.
  - constructor; [|constructor].
    exists (VStr "https://example.org/cat.png", 0, float_1_0).
    exists (image "https://example.org/cat.png" (VInt 0)).
    repeat split; reflexivity.
Defined.

(** C6, as worded, fails: when [infer] ends the process with
    [sys.exit], the [SystemExit] it raises is not an instance of
    [Exception]; the clause of line 136 does not catch it and it leaves
    the handler. *)
Lemma system_exit_escapes :
  raised_in_try (world_failing (External "SystemExit" "1")) job_cat
    (External "SystemExit" "1") /\
  ~ failure_reported (world_failing (External "SystemExit" "1")) job_cat
      (External "SystemExit" "1").
Proof.
  split.
  - left. exists cat_args. split; [vm_compute; tauto|reflexivity].
  - assert (E : outcome (world_failing (External "SystemExit" "1")) job_cat =
                Raised (External "SystemExit" "1")) by by vm_compute.
    unfold failure_reported. rewrite E. discriminate.
Qed.

(** C6, amended: when [infer], or [get_device], is called and raises an
    exception [e] that is an instance of [Exception], the handler returns
    [{"error": "Inference failed: " + str(e)}]; it neither raises nor
    stops. An exception that is not an instance of [Exception] leaves the
    handler as it is. *)
Theorem inference_failure_reported (w : world) (job : pyval) (e : exn) :
  raised_in_try w job e ->
  (is_Exception e = true -> failure_reported w job e) /\
  (is_Exception e = false -> outcome w job = Raised e).
Proof.
  intros H.
  assert (Ho : outcome w job = caught w e).
  { destruct H as [(args & Hin & He)|[Hin He]].
    - by rewrite (outcome_after_infer _ _ _ Hin), He.
    - apply get_device_called in Hin as [[[dir ji] [[ps ns] xs]] Hv].
      rewrite outcome_spec, Hv. unfold attempt_result, infer_call.
      by rewrite He. }
  unfold failure_reported. rewrite Ho. unfold caught, failed.
  split; by intros ->.
Qed.

Lemma inference_failure_reported_witness :
  failure_reported (world_failing (External "RuntimeError" "CUDA out of memory"))
    job_cat (External "RuntimeError" "CUDA out of memory").
Proof.
  apply (proj1 (inference_failure_reported
                  (world_failing (External "RuntimeError" "CUDA out of memory"))
                  job_cat (External "RuntimeError" "CUDA out of memory")
                  ltac:(left; exists cat_args;
                        split; [vm_compute; tauto|reflexivity]))).
  reflexivity.
Defined.

(** C7, as worded, fails: a field that is present does not reach [infer]
    with the value supplied when that value is not an integer. For the
    height ["720"] and the width [1216.9], [infer] receives the integers
    [720] and [1216]. *)
Lemma supplied_values_converted :
  In (CallInfer args_converted)
    (trace (world_writing ["video_0.mp4"]) (job_of input_converted)) /\
  ~ fields_passed_as_supplied input_converted args_converted.
Proof.
  split; [vm_compute; tauto|].
  intros (Hh & _). specialize (Hh (VStr "720") eq_refl). discriminate Hh.
Qed.

(** C7, amended: in the call of [infer], [height], [width], [num_frames]
    and [frame_rate] are 704, 1216, 121 and 30 when the input does not have
    them, [negative_prompt] is then the text of line 30, and [seed] is then
    the number drawn by [random.randint(0, 2**32 - 1)], which lies in
    [0..2^32-1] and can be any number of that range; a [negative_prompt]
    that is present is passed as supplied, and a numeric field that is
    present is passed as [int()] of the value supplied, which is that value
    when it is an integer. *)
Theorem documented_defaults (w : world) (job : pyval) (args : infer_args) :
  In (CallInfer args) (trace w job) -> defaults_filled w job args.
Proof.
  intros Hin. apply infer_called_inv in Hin
    as (j & ji & items & triples & -> & Hi & _ & _ & _ & _ & Hc & Hv & _).
  pose proof (infer_call_inr _ _ _ _ _ _ _ Hc)
    as (Hdev & Hseed & Hh & Hw & Hn & Hf & _ & _ & _ & Hp & Hneg & _).
  exists j, ji. do 6 (split; [done || by apply filled_intro|]).
  split; [intros Hk; rewrite Hk in Hneg; exact Hneg|].
  split; [intros v Hk; rewrite Hk in Hneg; exact Hneg|].
  split; [intros v Hk; by rewrite Hk in Hseed|].
  intros Hk.
  assert (Hs : seed args = randint w 0 (2 ^ 32 - 1)).
  { rewrite Hk in Hseed. cbn in Hseed. congruence. }
  split; [done|]. split.
  { rewrite Hs. apply (randint_range w 0 (2 ^ 32 - 1)). lia. }
  - intros z Hz.
    exists {| output_path := output_path args;
              seed := z;
              pipeline_config := pipeline_config args;
              image_cond_noise_scale := image_cond_noise_scale args;
              height := height args;
              width := width args;
              num_frames := num_frames args;
              frame_rate := frame_rate args;
              prompt := prompt args;
              negative_prompt := negative_prompt args;
              offload_to_cpu := offload_to_cpu args;
              input_media_path := input_media_path args;
              conditioning_media_paths := conditioning_media_paths args;
              conditioning_strengths := conditioning_strengths args;
              conditioning_start_frames := conditioning_start_frames args;
              device_arg := device_arg args |}.
    split; [|done]. apply infer_called.
    exists (output_path args), ji, triples.*1.*1, triples.*1.*2, triples.*2.
    split; [by rewrite validate_with_random_bits|].
    clear Hseed. revert Hc. unfold infer_call. cbn [get_device with_random_bits].
    rewrite Hk. cbn [from_option Py.int].
    rewrite (randint_with_random_bits w z Hz).
    destruct (get_device w); [done|].
    repeat match goal with
    | |- context [match Py.int ?v with _ => _ end] =>
        destruct (Py.int v) as [?f|?n]; [done|]
    end.
    by intros [= <-].
Qed.

Lemma documented_defaults_witness :
  defaults_filled (world_writing ["video_0.mp4"]) (job_of input_converted)
    args_converted.
Proof.
  apply (documented_defaults (world_writing ["video_0.mp4"])
           (job_of input_converted) args_converted).
  vm_compute. tauto.
Defined.

(** C8: every call of [infer] passes the configuration
    ["configs/ltxv-13b-0.9.7-distilled.yaml"], as noise scale the float
    nearest to 15/100, [offload_to_cpu = False], [input_media_path = None],
    and three lists of
    the length of [conditioning_images] whose elements of index [i] are the
    [url], [int(start_frame)] and [float(strength)] of the entry of index
    [i]. *)
Theorem infer_arguments (w : world) (job : pyval) (args : infer_args) :
  In (CallInfer args) (trace w job) -> fixed_arguments job args.
Proof.
  intros Hin. apply infer_called_inv in Hin
    as (j & ji & items & triples & -> & Hi & _ & Hl & _ & _ & Hc & _ & HF).
  pose proof (infer_call_inr _ _ _ _ _ _ _ Hc)
    as (_ & _ & _ & _ & _ & _ & _ & Hcfg & Hnoise & _ & _ & Hoff & Hmedia
        & Hps & Hxs & Hns).
  pose proof (Forall2_length _ _ _ HF) as Hlen.
  split; [done|]. split; [rewrite Hnoise; apply float_0_15_nearest|].
  do 2 (split; [done|]). exists j, ji, items.
  do 3 (split; [done|]).
  rewrite Hps, Hxs, Hns, !length_fmap.
  do 3 (split; [done|]).
  intros i image_info Hitem.
  destruct (Forall2_lookup_l _ _ _ _ _ HF Hitem)
    as ([[url n] x] & Ht & d & -> & _ & Hu & Hn & Hx).
  cbn [fst snd] in Hu, Hn, Hx. exists d, n, x.
  rewrite !list_lookup_fmap, Ht. cbn. by rewrite Hu.
Qed.

Lemma infer_arguments_witness :
  fixed_arguments job_cat cat_args.
Proof.
  apply (infer_arguments (world_writing ["video_0.mp4"]) job_cat cat_args).
  vm_compute. tauto.
Defined.

(** C9: the handler never returns
    [{"error": "No valid conditioning images provided or processed."}]:
    when the test of line 77 is reached, the loop has appended one path
    for each element of a value that is not empty. *)
Theorem no_valid_conditioning_unreachable (w : world) (job : pyval) :
  outcome w job <>
  Returned (error "No valid conditioning images provided or processed.").
Proof.
  rewrite outcome_spec. unfold validate.
  destruct job as [| | | | | |j]; try different_results.
  destruct (default (VDict ∅) (j !! "input")) as [| | | | | |ji];
    try different_results.
  destruct (truthy (default VNone (ji !! "prompt"))); cbn [negb];
    [|different_results].
  destruct (truthy (default (VList []) (ji !! "conditioning_images"))) eqn:Ec;
    cbn [negb]; [|different_results].
  destruct (mkdtemp w "ltx_video_output_") as [e|dir]; [different_results|].
  destruct (Py.iter (default (VList []) (ji !! "conditioning_images")))
    as [f|items] eqn:Et; [different_results|].
  pose proof (iter_truthy _ _ Ec Et) as Hne.
  destruct (fst (conditioning_loop items [] [] [])) as [x|[[ps ns] xs]] eqn:El.
  - apply conditioning_loop_inl in El as (image_info & _ & Hr).
    destruct x as [v|e]; [|different_results].
    apply round_returned in Hr as [-> _]. different_results.
  - apply conditioning_loop_inr in El as (triples & HF & -> & _ & _).
    destruct HF as [|image_info t items triples _ _]; [done|]. cbn.
    unfold attempt_result, caught, failed, located.
    destruct (infer_call w dir ji _ ns xs) as [e|args];
      [destruct (is_Exception e); different_results|].
    destruct (infer w args) as [e|listing];
      [destruct (is_Exception e); different_results|].
    destruct (glob listing dir "*.mp4" ++ glob listing dir "*.png");
      different_results.
Qed.

(** C10: in one round of the loop, an entry with a non-empty [url] and
    [start_frame = 0] passes the test of line 69 ([0] is not [None]) and
    contributes frame [0]; an entry whose [url] is the empty string is
    rejected with the message of line 70; an entry without [strength]
    contributes as strength the float 1, the one nearest to 1/1. *)
Theorem boundary_values (d : gmap string pyval) (rest : list pyval)
    (ps : list pyval) (ns : list Z) (xs : list spec_float) :
  (forall (u : string) (x : spec_float),
     d !! "url" = Some (VStr u) -> u <> "" ->
     d !! "start_frame" = Some (VInt 0) ->
     Py.float (strength_of d) = inr x ->
     conditioning_loop (VDict d :: rest) ps ns xs =
     conditioning_loop rest (ps ++ [VStr u]) (ns ++ [0]) (xs ++ [x])) /\
  (d !! "url" = Some (VStr "") ->
   conditioning_loop (VDict d :: rest) ps ns xs =
   return_ (error "Each conditioning image must have a 'url' and 'start_frame'.")) /\
  (forall n : Z,
     d !! "strength" = None ->
     truthy (url_of d) = true ->
     Py.int (start_frame_of d) = inr n ->
     exists one : spec_float,
       nearest_double 1 1 one /\
       conditioning_loop (VDict d :: rest) ps ns xs =
       conditioning_loop rest (ps ++ [url_of d]) (ns ++ [n]) (xs ++ [one])).
Proof.
  repeat split.
  - intros u x Hu Hne Hs Hx. rewrite conditioning_loop_cons.
    assert (Hr : round (VDict d) = inr (VStr u, 0, x)).
    { apply round_contributes. exists d.
      unfold url_of, start_frame_of. rewrite Hu, Hs.
      repeat split; try done. by destruct u. }
    by rewrite Hr.
  - intros Hu. rewrite conditioning_loop_cons.
    assert (Hr : round (VDict d) =
      inl (Returned (error "Each conditioning image must have a 'url' and 'start_frame'."))).
    { apply round_missing. exists d. split; [done|]. left.
      unfold url_of. by rewrite Hu. }
    by rewrite Hr.
  - intros n Hs Hu Hn. exists float_1_0. split; [apply float_1_0_nearest|].
    rewrite conditioning_loop_cons.
    assert (Hr : round (VDict d) = inr (url_of d, n, float_1_0)).
    { apply round_contributes. exists d. repeat split; try done.
      unfold strength_of. by rewrite Hs. }
    by rewrite Hr.
Qed.

Lemma boundary_values_witness :
  conditioning_loop [VDict (image "https://example.org/cat.png" (VInt 0))] [] [] [] =
  ret ([VStr "https://example.org/cat.png"], [0],
       [S754_finite false 4503599627370496 (-52)]) /\
  conditioning_loop [VDict (image "" (VInt 0))] [] [] [] =
  return_ (error "Each conditioning image must have a 'url' and 'start_frame'.") /\
  exists one : spec_float,
    nearest_double 1 1 one /\
    conditioning_loop [VDict (image "https://example.org/cat.png" (VInt 0))] [] [] [] =
    conditioning_loop [] ([] ++ [VStr "https://example.org/cat.png"])
      ([] ++ [0]) ([] ++ [one]).
Proof.
  split; [|split].
  - apply (proj1 (boundary_values (image "https://example.org/cat.png" (VInt 0))
                    [] [] [] [])).
    + reflexivity.
    + discriminate.
    + reflexivity.
    + reflexivity.
  - apply (proj1 (proj2 (boundary_values (image "" (VInt 0)) [] [] [] []))).
    reflexivity.
  - apply (proj2 (proj2 (boundary_values
                           (image "https://example.org/cat.png" (VInt 0))
                           [] [] [] [])) 0).
    + reflexivity.
    + reflexivity.
    + reflexivity.
Defined.

(** * Further properties of the handler *)

(** ** The trace, call by call *)

Lemma attempt_trace_spec (w : world) (dir : string) (ji : gmap string pyval)
    (ps : list pyval) (ns : list Z) (xs : list spec_float) :
  snd (attempt w dir ji ps ns xs) = attempt_trace w dir ji ps ns xs.
Proof.
  unfold attempt, attempt_trace, infer_call, run_inference, failure_log.
  destruct (get_device w) as [e|dev]; autorewrite with py;
    [cbn; by destruct (is_Exception e)|].
  repeat match goal with
  | |- context [Py.int ?v] =>
      destruct (Py.int v) as [?f|?n]; autorewrite with py; [reflexivity|]
  end.
  match goal with |- context [infer w ?a] => set (a0 := a) end.
  destruct (infer w a0) as [e|listing]; autorewrite with py;
    [cbn; by destruct (is_Exception e)|].
  destruct (glob listing dir "*.mp4" ++ glob listing dir "*.png") as [|p rest];
    autorewrite with py; reflexivity.
Qed.

Lemma trace_spec (w : world) (job : pyval) :
  trace w job =
  early_calls job ++
  match validate w job with
  | inl _ => []
  | inr (dir, ji, (ps, ns, xs)) => attempt_trace w dir ji ps ns xs
  end.
Proof.
  unfold trace, handler, validate, early_calls.
  destruct job as [| | | | | |j]; try reflexivity.
  cbn [Py.get]. autorewrite with py.
  destruct (default (VDict ∅) (j !! "input")) as [| | | | | |ji];
    try reflexivity.
  cbn [Py.get]. autorewrite with py.
  destruct (negb (truthy (default VNone (ji !! "prompt")))); [reflexivity|].
  autorewrite with py.
  destruct (negb (truthy (default (VList []) (ji !! "conditioning_images"))));
    [reflexivity|].
  destruct (mkdtemp w "ltx_video_output_") as [e|dir]; autorewrite with py;
    [reflexivity|].
  destruct (Py.iter (default (VList []) (ji !! "conditioning_images")))
    as [f|items]; autorewrite with py; [reflexivity|].
  pose proof (conditioning_loop_silent items [] [] []) as Hs.
  destruct (conditioning_loop items [] [] []) as [[x|[[ps ns] xs]] t];
    cbn [fst snd] in *; subst t; [reflexivity|].
  unfold bind at 1. cbn [app].
  destruct (negb (truthy (VList ps))); [reflexivity|].
  rewrite <- attempt_trace_spec. unfold attempt, NEGATIVE_PROMPT.
  by destruct (try_except _ _).
Qed.

(** The [try] statement calls [get_device] and [infer] only. *)
Lemma attempt_trace_calls (w : world) (dir : string) (ji : gmap string pyval)
    (ps : list pyval) (ns : list Z) (xs : list spec_float) (ev : event) :
  In ev (attempt_trace w dir ji ps ns xs) ->
  ev = CallGetDevice \/ (exists args, ev = CallInfer args) \/ is_call ev = false.
Proof.
  unfold attempt_trace, failure_log.
  destruct (get_device w) as [e|dev].
  { destruct (is_Exception e); cbn; intros H;
      repeat destruct H as [<-|H]; auto; done. }
  destruct (infer_call w dir ji ps ns xs) as [e|args].
  { destruct (is_Exception e); cbn; intros H;
      repeat destruct H as [<-|H]; auto; done. }
  destruct (infer w args) as [e|listing].
  { destruct (is_Exception e); cbn; intros H;
      repeat destruct H as [<-|H]; eauto; done. }
  destruct (glob listing dir "*.mp4" ++ glob listing dir "*.png");
    cbn; intros H; repeat destruct H as [<-|H]; eauto; done.
Qed.

(** X1: a job that is not a mapping, or whose [input] is present but is
    not a mapping ([null], a list, a string), makes the handler raise the
    [AttributeError] of [.get] before any external call. *)
Theorem job_must_be_mapping (w : world) (job : pyval) :
  ((forall j, job <> VDict j) ->
   outcome w job = Raised (Builtin (NoAttribute (type_of job) "get")) /\
   trace w job = []) /\
  (forall j v,
     job = VDict j -> j !! "input" = Some v -> (forall ji, v <> VDict ji) ->
     outcome w job = Raised (Builtin (NoAttribute (type_of v) "get")) /\
     trace w job = []).
Proof.
  split.
  - intros Hj. rewrite outcome_spec, trace_spec. unfold validate, early_calls.
    destruct job as [| | | | | |j]; try done. by destruct (Hj j).
  - intros j v -> Hi Hv. rewrite outcome_spec, trace_spec.
    unfold validate, early_calls. rewrite Hi. cbn [from_option id].
    destruct v as [| | | | | |ji]; try done. by destruct (Hv ji).
Qed.

Lemma job_must_be_mapping_witness :
  outcome (world_writing ["video_0.mp4"]) (VDict {[ "input" := VNone ]}) =
  Raised (Builtin (NoAttribute TNone "get")) /\
  trace (world_writing ["video_0.mp4"]) (VDict {[ "input" := VNone ]}) = [].
Proof.
  apply (proj2 (job_must_be_mapping (world_writing ["video_0.mp4"])
                  (VDict {[ "input" := VNone ]}))
           {[ "input" := VNone ]} VNone).
  - reflexivity.
  - reflexivity.
  - discriminate.
Defined.

(** X2: a prompt that is present but falsy (the empty string, [null],
    [0], [false], an empty list or mapping) is refused like a missing one,
    and the handler has then made no external call at all: no random draw,
    no directory, no inference. *)
Theorem falsy_prompt_rejected (w : world) (j ji : gmap string pyval) :
  default (VDict ∅) (j !! "input") = VDict ji ->
  truthy (default VNone (ji !! "prompt")) = false ->
  outcome w (VDict j) = Returned (error "Prompt is a required input.") /\
  trace w (VDict j) = [].
Proof.
  intros Hi Hp. rewrite outcome_spec, trace_spec.
  unfold validate, early_calls. by rewrite Hi, Hp.
Qed.

Lemma falsy_prompt_rejected_witness :
  outcome (world_writing ["video_0.mp4"])
    (job_of (input_with "" [VDict (image "https://example.org/cat.png" (VInt 0))])) =
  Returned (error "Prompt is a required input.") /\
  trace (world_writing ["video_0.mp4"])
    (job_of (input_with "" [VDict (image "https://example.org/cat.png" (VInt 0))])) = [].
Proof.
  unfold job_of.
  apply (falsy_prompt_rejected (world_writing ["video_0.mp4"])
           {[ "input" := VDict (input_with ""
                [VDict (image "https://example.org/cat.png" (VInt 0))]) ]}
           (input_with "" [VDict (image "https://example.org/cat.png" (VInt 0))])).
  - reflexivity.
  - reflexivity.
Defined.

(** X3: the default of [seed] is computed before [seed] is looked up
    (line 35): every job that passes the prompt check starts by drawing a
    random number, whether or not it supplies a seed. *)
Theorem seed_drawn_eagerly (w : world) (j ji : gmap string pyval) :
  default (VDict ∅) (j !! "input") = VDict ji ->
  truthy (default VNone (ji !! "prompt")) = true ->
  exists rest, trace w (VDict j) = CallRandint 0 (2 ^ 32 - 1) :: rest.
Proof.
  intros Hi Hp. rewrite trace_spec. unfold early_calls. rewrite Hi, Hp.
  cbn [negb].
  destruct (negb (truthy (default (VList []) (ji !! "conditioning_images"))));
    by eexists.
Qed.

Lemma seed_drawn_eagerly_witness :
  exists rest,
    trace (world_writing ["video_0.mp4"]) job_with_seed =
    CallRandint 0 (2 ^ 32 - 1) :: rest.
Proof.
  unfold job_with_seed, job_of.
  apply (seed_drawn_eagerly (world_writing ["video_0.mp4"])
           {[ "input" := VDict (<[ "seed" := VInt 42 ]>
                (input_with "a cat"
                   [VDict (image "https://example.org/cat.png" (VInt 0))])) ]}
           (<[ "seed" := VInt 42 ]>
              (input_with "a cat"
                 [VDict (image "https://example.org/cat.png" (VInt 0))]))).
  - reflexivity.
  - reflexivity.
Defined.

(** X4: the temporary directory is created (line 58) before the
    conditioning entries are looked at (lines 64-75): [mkdtemp] is called
    exactly for the jobs that pass the prompt check and the
    conditioning-images check, so a job turned down by the entry check of
    line 69 has already created its directory. *)
Theorem directory_created_before_entries (w : world) (job : pyval) :
  (In (CallMkdtemp "ltx_video_output_") (trace w job) <->
   exists j ji,
     job = VDict j /\
     default (VDict ∅) (j !! "input") = VDict ji /\
     truthy (default VNone (ji !! "prompt")) = true /\
     truthy (default (VList []) (ji !! "conditioning_images")) = true) /\
  (outcome w job =
   Returned (error "Each conditioning image must have a 'url' and 'start_frame'.") ->
   In (CallMkdtemp "ltx_video_output_") (trace w job)).
Proof.
  assert (Hiff : In (CallMkdtemp "ltx_video_output_") (trace w job) <->
    exists j ji,
      job = VDict j /\
      default (VDict ∅) (j !! "input") = VDict ji /\
      truthy (default VNone (ji !! "prompt")) = true /\
      truthy (default (VList []) (ji !! "conditioning_images")) = true).
  { rewrite trace_spec, in_app_iff. split.
    - intros [H|H].
      + revert H. unfold early_calls.
        destruct job as [| | | | | |j]; try done.
        destruct (default (VDict ∅) (j !! "input")) as [| | | | | |ji] eqn:Hi;
          try done.
        destruct (truthy (default VNone (ji !! "prompt"))) eqn:Hp;
          cbn [negb]; [|done].
        destruct (truthy (default (VList []) (ji !! "conditioning_images")))
          eqn:Hc; cbn [negb].
        * intros _. by exists j, ji.
        * intros [H|[]]. discriminate.
      + destruct (validate w job) as [x|[[dir ji] [[ps ns] xs]]]; [done|].
        apply attempt_trace_calls in H as [H|[[args H]|H]]; discriminate.
    - intros (j & ji & -> & Hi & Hp & Hc). left.
      unfold early_calls. rewrite Hi, Hp, Hc. cbn. tauto. }
  split; [exact Hiff|].
  intros Ho. apply Hiff. revert Ho. rewrite outcome_spec. unfold validate.
  destruct job as [| | | | | |j]; try different_results.
  destruct (default (VDict ∅) (j !! "input")) as [| | | | | |ji] eqn:Hi;
    try different_results.
  destruct (truthy (default VNone (ji !! "prompt"))) eqn:Hp; cbn [negb];
    [|different_results].
  destruct (truthy (default (VList []) (ji !! "conditioning_images"))) eqn:Hc;
    cbn [negb]; [|different_results].
  intros _. by exists j, ji.
Qed.

Lemma directory_created_before_entries_witness :
  In (CallMkdtemp "ltx_video_output_")
    (trace (world_writing ["video_0.mp4"]) job_empty_entry).
Proof.
  apply (proj2 (directory_created_before_entries
                  (world_writing ["video_0.mp4"]) job_empty_entry)).
  reflexivity.
Defined.

(** ** Entries on which the loop stops *)

(** The loop leaves the function at the first entry whose round does. *)
Lemma conditioning_loop_stops (good rest : list pyval) (bad : pyval) (x : exit) :
  Forall well_formed good ->
  round bad = inl x ->
  forall ps ns xs,
    conditioning_loop (good ++ bad :: rest) ps ns xs = (inl x, []).
Proof.
  intros HF Hb. induction HF as [|i l [t Hi] _ IH]; intros ps ns xs; cbn [app].
  - by rewrite conditioning_loop_cons, Hb.
  - apply round_contributes in Hi. rewrite conditioning_loop_cons, Hi.
    destruct t as [[url n] y]. apply IH.
Qed.

Lemma round_refused (image_info : pyval) (f : fault) :
  refused image_info f -> round image_info = inl (Raised (Builtin f)).
Proof.
  intros [[Hd ->]|(d & -> & Hu & Hs & H)].
  - destruct image_info as [| | | | | |d]; try done. by destruct (Hd d).
  - unfold url_of, start_frame_of, strength_of in *. cbn [round].
    rewrite Hu. cbn [negb orb].
    destruct (default VNone (d !! "start_frame")) eqn:Es; try done;
      cbn [is_None].
    all: destruct H as [Hn|[[n Hn] Hx]]; rewrite Hn; [done|by rewrite Hx].
Qed.

(** X5: when [conditioning_images] is given, truthy, and not a list, the
    handler raises after having created the directory, and never reaches
    the inference: a non-empty string or a non-empty mapping is iterated
    and its first element, a string, has no [get] ([AttributeError]); a
    number or [true] cannot be iterated ([TypeError]). *)
Theorem images_must_be_list (w : world) (j ji : gmap string pyval)
    (v : pyval) (dir : string) :
  default (VDict ∅) (j !! "input") = VDict ji ->
  truthy (default VNone (ji !! "prompt")) = true ->
  default (VList []) (ji !! "conditioning_images") = v ->
  truthy v = true ->
  (forall l, v <> VList l) ->
  mkdtemp w "ltx_video_output_" = inr dir ->
  outcome w (VDict j) =
  Raised (Builtin match v with
                  | VStr _ | VDict _ => NoAttribute TStr "get"
                  | _ => NotIterable (type_of v)
                  end) /\
  trace w (VDict j) =
  [CallRandint 0 (2 ^ 32 - 1); CallMkdtemp "ltx_video_output_"].
Proof.
  intros Hi Hp Hv Ht Hl Hd. rewrite outcome_spec, trace_spec.
  unfold validate, early_calls. rewrite Hi, Hp, Hv, Ht, Hd. cbn [negb].
  destruct v as [| | | |s|l|d]; try done.
  - destruct s as [|c s]; [done|]. cbn [Py.iter chars].
    by rewrite conditioning_loop_cons.
  - by destruct (Hl l).
  - cbn [Py.iter].
    destruct (map_to_list d) as [|[k x] rest] eqn:Em.
    + apply map_to_list_empty_iff in Em. subst d. done.
    + by cbn.
Qed.

Lemma images_must_be_list_witness :
  outcome (world_writing ["video_0.mp4"]) job_images_as_text =
  Raised (Builtin (NoAttribute TStr "get")) /\
  trace (world_writing ["video_0.mp4"]) job_images_as_text =
  [CallRandint 0 (2 ^ 32 - 1); CallMkdtemp "ltx_video_output_"].
Proof.
  unfold job_images_as_text, job_of.
  apply (images_must_be_list (world_writing ["video_0.mp4"])
           {[ "input" := VDict (<[ "prompt" := VStr "a cat" ]>
                {[ "conditioning_images" := VStr "https://example.org/cat.png" ]}) ]}
           (<[ "prompt" := VStr "a cat" ]>
              {[ "conditioning_images" := VStr "https://example.org/cat.png" ]})
           (VStr "https://example.org/cat.png")
           "/tmp/ltx_video_output_k3x9").
  - reflexivity.
  - reflexivity.
  - reflexivity.
  - reflexivity.
  - discriminate.
  - reflexivity.
Defined.

(** X6: the handler raises at the first entry that is not a mapping, or
    that passes the test of line 69 with a [start_frame] refused by [int()]
    or a [strength] refused by [float()] ([int()] is tried first), when the
    entries before it are well formed: the exception is the one of that
    conversion, the directory has been created and neither [get_device] nor
    [infer] is called. *)
Theorem entry_refused_raises (w : world) (j ji : gmap string pyval)
    (good rest : list pyval) (bad : pyval) (f : fault) (dir : string) :
  default (VDict ∅) (j !! "input") = VDict ji ->
  truthy (default VNone (ji !! "prompt")) = true ->
  default (VList []) (ji !! "conditioning_images") = VList (good ++ bad :: rest) ->
  Forall well_formed good ->
  refused bad f ->
  mkdtemp w "ltx_video_output_" = inr dir ->
  outcome w (VDict j) = Raised (Builtin f) /\
  trace w (VDict j) =
  [CallRandint 0 (2 ^ 32 - 1); CallMkdtemp "ltx_video_output_"].
Proof.
  intros Hi Hp Hl HF Hb Hd. rewrite outcome_spec, trace_spec.
  unfold validate, early_calls. rewrite Hi, Hp, Hl, Hd. cbn [negb Py.iter].
  assert (Ht : truthy (VList (good ++ bad :: rest)) = true) by by destruct good.
  rewrite Ht. cbn [negb].
  by rewrite (conditioning_loop_stops good rest bad _ HF (round_refused _ _ Hb)).
Qed.

Lemma entry_refused_raises_witness :
  outcome (world_writing ["video_0.mp4"]) job_urls_as_text =
  Raised (Builtin (NoAttribute TStr "get")) /\
  trace (world_writing ["video_0.mp4"]) job_urls_as_text =
  [CallRandint 0 (2 ^ 32 - 1); CallMkdtemp "ltx_video_output_"].
Proof.
  unfold job_urls_as_text, job_of.
  apply (entry_refused_raises (world_writing ["video_0.mp4"])
           {[ "input" := VDict (input_with "a cat"
                [VStr "https://example.org/cat.png"]) ]}
           (input_with "a cat" [VStr "https://example.org/cat.png"])
           [] [] (VStr "https://example.org/cat.png")
           (NoAttribute TStr "get") "/tmp/ltx_video_output_k3x9").
  - reflexivity.
  - reflexivity.
  - reflexivity.
  - constructor.
  - left. split; [discriminate|reflexivity].
  - reflexivity.
Defined.

(** ** Patterns *)

Lemma fnmatch_char (c : ascii) (p name : string) :
  c <> "*"%char ->
  fnmatch (String c p) name =
  match name with
  | EmptyString => false
  | String d name' => bool_decide (c = d) && fnmatch p name'
  end.
Proof.
  intros Hc. destruct c as [[] [] [] [] [] [] [] []]; try reflexivity.
  by destruct Hc.
Qed.

Lemma fnmatch_star (p name : string) :
  fnmatch (String "*" p) name =
  fnmatch p name ||
  match name with
  | EmptyString => false
  | String _ name' => fnmatch (String "*" p) name'
  end.
Proof. by destruct name. Qed.

(** A pattern without [*] matches itself only. *)
Lemma fnmatch_literal (p : string) :
  literal p = true -> forall name, fnmatch p name = true <-> name = p.
Proof.
  induction p as [|c p IH]; intros Hl name.
  - cbn. by rewrite bool_decide_eq_true.
  - cbn [literal] in Hl. apply andb_true_iff in Hl as [Hc Hp].
    apply negb_true_iff, bool_decide_eq_false in Hc.
    rewrite (fnmatch_char c p name Hc).
    destruct name as [|d name]; [done|].
    rewrite andb_true_iff, bool_decide_eq_true, (IH Hp name). split.
    + by intros [-> ->].
    + by intros [= -> ->].
Qed.

(** [*] followed by a literal text matches the names that end with it. *)
Lemma fnmatch_suffix (p : string) :
  literal p = true ->
  forall name, fnmatch (String "*" p) name = true <-> ends_with p name.
Proof.
  intros Hl name. induction name as [|c name IH].
  - rewrite fnmatch_star, orb_false_r, (fnmatch_literal p Hl). split.
    + intros <-. by exists "".
    + intros [stem H]. destruct stem; [done|discriminate].
  - rewrite fnmatch_star, orb_true_iff, (fnmatch_literal p Hl), IH. split.
    + intros [<-|[stem ->]]; [by exists ""|by exists (String c stem)].
    + intros [[|d stem] H]; [by left|].
      injection H as -> ->. right. by exists stem.
Qed.

Lemma glob_inv (listing : list string) (dir pattern path : string) :
  In path (glob listing dir pattern) ->
  exists name,
    In name listing /\ fnmatch pattern name = true /\
    path = dir +:+ "/" +:+ name.
Proof.
  unfold glob. intros H. apply list_elem_of_In, list_elem_of_fmap in H
    as (name & -> & H).
  apply list_elem_of_filter in H as [Hm H].
  exists name. split; [by apply list_elem_of_In|]. split; [|done].
  by apply Is_true_true.
Qed.

(** X7: the handler reports an output only for a file that is there:
    whenever it returns [{"output_video": path}], [infer] has been called
    and has returned, and [path] is the directory that [mkdtemp] created,
    a slash, and the name of an entry of that directory that ends in
    [.mp4] or [.png] (in lower case). *)
Theorem output_comes_from_infer (w : world) (job : pyval) (path : string) :
  outcome w job = Returned (output_video path) ->
  exists args listing name,
    In (CallInfer args) (trace w job) /\
    infer w args = inr listing /\
    mkdtemp w "ltx_video_output_" = inr (output_path args) /\
    In name listing /\
    path = output_path args +:+ "/" +:+ name /\
    (ends_with ".mp4" name \/ ends_with ".png" name).
Proof.
  rewrite outcome_spec.
  destruct (validate w job) as [x|[[dir ji] [[ps ns] xs]]] eqn:Ev.
  { intros ->. apply validate_returned in Ev as [m Hm].
    symmetry in Hm. by apply error_not_output_video in Hm. }
  intros Ho. unfold attempt_result in Ho.
  destruct (infer_call w dir ji ps ns xs) as [e|args] eqn:Ec;
    [by apply caught_not_output_video in Ho|].
  destruct (infer w args) as [e|listing] eqn:Ei;
    [by apply caught_not_output_video in Ho|].
  assert (Hr : located listing dir = output_video path) by congruence.
  clear Ho. unfold located in Hr.
  destruct (glob listing dir "*.mp4" ++ glob listing dir "*.png")
    as [|p rest] eqn:Eg; [by apply error_not_output_video in Hr|].
  apply output_video_inj in Hr as ->.
  assert (Hin : In path (glob listing dir "*.mp4" ++ glob listing dir "*.png"))
    by (rewrite Eg; by left).
  pose proof (infer_call_inr _ _ _ _ _ _ _ Ec) as Hf.
  destruct Hf as (_ & _ & _ & _ & _ & _ & Hd & _).
  pose proof (validate_inr _ _ _ _ _ _ _ Ev)
    as (_ & _ & _ & _ & _ & _ & _ & _ & Hm & _).
  assert (Hcall : In (CallInfer args) (trace w job)).
  { apply infer_called. by exists dir, ji, ps, ns, xs. }
  subst dir.
  apply in_app_iff in Hin as [H|H];
    apply glob_inv in H as (name & Hn & Hmatch & ->).
  - apply (fnmatch_suffix ".mp4" eq_refl) in Hmatch.
    exists args, listing, name. repeat split; auto.
  - apply (fnmatch_suffix ".png" eq_refl) in Hmatch.
    exists args, listing, name. repeat split; auto.
Qed.

Lemma output_comes_from_infer_witness :
  exists args listing name,
    In (CallInfer args) (trace (world_writing ["notes.txt"; "clip.png"]) job_cat) /\
    infer (world_writing ["notes.txt"; "clip.png"]) args = inr listing /\
    mkdtemp (world_writing ["notes.txt"; "clip.png"]) "ltx_video_output_" =
    inr (output_path args) /\
    In name listing /\
    "/tmp/ltx_video_output_k3x9/clip.png" = output_path args +:+ "/" +:+ name /\
    (ends_with ".mp4" name \/ ends_with ".png" name).
Proof.
  apply (output_comes_from_infer (world_writing ["notes.txt"; "clip.png"])
           job_cat "/tmp/ltx_video_output_k3x9/clip.png").
  reflexivity.
Defined.

(** ** Conversions inside the [try] *)

Lemma infer_call_fault (w : world) (dir : string) (ji : gmap string pyval)
    (ps : list pyval) (ns : list Z) (xs : list spec_float)
    (dev : device) (f : fault) :
  get_device w = inr dev ->
  conversion_fault w ji = Some f ->
  infer_call w dir ji ps ns xs = inl (Builtin f).
Proof.
  unfold infer_call, conversion_fault. intros ->.
  repeat match goal with
  | |- context [match Py.int ?v with _ => _ end] =>
      destruct (Py.int v) as [?f|?n]; [by intros [= ->]|]
  end.
  discriminate.
Qed.

(** X8: [seed], [height], [width], [num_frames] and [frame_rate] are
    converted by [int()] inside the [try], after [get_device]: when one of
    them is refused ([null], a list, text that is not a number), the
    handler returns [{"error": "Inference failed: " + str(e)}] for the
    first refusal, in the order seed, height, width, num_frames,
    frame_rate, and [infer] is not called. *)
Theorem conversion_failure_reported (w : world) (j ji : gmap string pyval)
    (dev : device) (f : fault) :
  default (VDict ∅) (j !! "input") = VDict ji ->
  In CallGetDevice (trace w (VDict j)) ->
  get_device w = inr dev ->
  conversion_fault w ji = Some f ->
  outcome w (VDict j) =
  Returned (error ("Inference failed: " +:+ fault_text w f)) /\
  infer_not_invoked w (VDict j).
Proof.
  intros Hi Hin Hd Hf.
  apply get_device_called in Hin as [[[dir ji'] [[ps ns] xs]] Hv].
  pose proof (validate_inr _ _ _ _ _ _ _ Hv)
    as (j' & _ & _ & Hj & Hi' & _).
  assert (j' = j) by congruence. subst j'.
  assert (ji' = ji) by congruence. subst ji'.
  pose proof (infer_call_fault w dir ji ps ns xs dev f Hd Hf) as Hc.
  split.
  - rewrite outcome_spec, Hv. unfold attempt_result. by rewrite Hc.
  - intros args Ha.
    apply infer_called in Ha as (? & ? & ? & ? & ? & Hv' & Hc').
    rewrite Hv in Hv'. injection Hv' as <- <- <- <- <-. congruence.
Qed.

Lemma conversion_failure_reported_witness :
  outcome (world_writing ["video_0.mp4"]) job_null_height =
  Returned (error "Inference failed: ") /\
  infer_not_invoked (world_writing ["video_0.mp4"]) job_null_height.
Proof.
  unfold job_null_height, job_of.
  apply (conversion_failure_reported (world_writing ["video_0.mp4"])
           {[ "input" := VDict (<[ "height" := VNone ]>
                (input_with "a cat"
                   [VDict (image "https://example.org/cat.png" (VInt 0))])) ]}
           (<[ "height" := VNone ]>
              (input_with "a cat"
                 [VDict (image "https://example.org/cat.png" (VInt 0))]))
           "cuda" (IntBadArgument TNone)).
  - reflexivity.
  - vm_compute. tauto.
  - reflexivity.
  - reflexivity.
Defined.

(** ** The order of the external calls *)

Lemma calls_attempt_trace (w : world) (dir : string) (ji : gmap string pyval)
    (ps : list pyval) (ns : list Z) (xs : list spec_float) :
  calls (attempt_trace w dir ji ps ns xs) =
  CallGetDevice ::
  match get_device w, infer_call w dir ji ps ns xs with
  | inr _, inr args => [CallInfer args]
  | _, _ => []
  end.
Proof.
  unfold calls, attempt_trace, failure_log.
  destruct (get_device w) as [e|dev]; [by destruct (is_Exception e)|].
  destruct (infer_call w dir ji ps ns xs) as [e|args];
    [by destruct (is_Exception e)|].
  destruct (infer w args) as [e|listing]; [by destruct (is_Exception e)|].
  by destruct (glob listing dir "*.mp4" ++ glob listing dir "*.png").
Qed.

(** X9: the external calls of a job are an initial part of the sequence
    [random.randint], [tempfile.mkdtemp], [get_device], [infer]: each is
    made at most once, in this order, and none is retried. *)
Theorem calls_in_order (w : world) (job : pyval) :
  exists args,
    calls (trace w job) `prefix_of`
    [CallRandint 0 (2 ^ 32 - 1); CallMkdtemp "ltx_video_output_";
     CallGetDevice; CallInfer args].
Proof.
  rewrite trace_spec. unfold calls. rewrite filter_app.
  fold (calls (early_calls job)).
  destruct (validate w job) as [x|[[dir ji] [[ps ns] xs]]] eqn:Ev.
  - exists cat_args. rewrite filter_nil, app_nil_r. unfold early_calls.
    destruct job as [| | | | | |j]; try by eexists.
    destruct (default (VDict ∅) (j !! "input")); try by eexists.
    destruct (negb _); [by eexists|].
    destruct (negb _); by eexists.
  - fold (calls (attempt_trace w dir ji ps ns xs)).
    rewrite calls_attempt_trace.
    pose proof (validate_inr _ _ _ _ _ _ _ Ev)
      as (j & items & _ & -> & Hi & Hp & Hl & _).
    unfold early_calls. rewrite Hi, Hp, Hl. cbn [negb truthy].
    destruct items as [|i items].
    { apply validate_inr in Ev as (_ & items' & _ & _ & _ & _ & Hl' & Hne & _).
      congruence. }
    destruct (get_device w) as [e|dev]; [exists cat_args; by eexists|].
    destruct (infer_call w dir ji ps ns xs) as [e|args];
      [exists cat_args|exists args]; by eexists.
Qed.

(** ** The random draw *)

(** X10: when the job supplies a [seed], the number drawn at line 35 is
    not used: the value returned, the exception raised and the whole trace
    are the same whatever the random generator yields. *)
Theorem supplied_seed_fixes_run (w : world) (z : Z) (j ji : gmap string pyval)
    (v : pyval) :
  default (VDict ∅) (j !! "input") = VDict ji ->
  ji !! "seed" = Some v ->
  handler (with_random_bits w z) (VDict j) = handler w (VDict j).
Proof.
  intros Hi Hs. unfold handler. cbn [Py.get]. autorewrite with py.
  rewrite Hi. cbn [Py.get]. autorewrite with py.
  destruct (negb (truthy (default VNone (ji !! "prompt")))); [reflexivity|].
  autorewrite with py. rewrite Hs. reflexivity.
Qed.

Lemma supplied_seed_fixes_run_witness :
  handler (with_random_bits (world_writing ["video_0.mp4"]) 7) job_with_seed =
  handler (world_writing ["video_0.mp4"]) job_with_seed.
Proof.
  unfold job_with_seed, job_of.
  apply (supplied_seed_fixes_run (world_writing ["video_0.mp4"]) 7
           {[ "input" := VDict (<[ "seed" := VInt 42 ]>
                (input_with "a cat"
                   [VDict (image "https://example.org/cat.png" (VInt 0))])) ]}
           (<[ "seed" := VInt 42 ]>
              (input_with "a cat"
                 [VDict (image "https://example.org/cat.png" (VInt 0))]))
           (VInt 42)).
  - reflexivity.
  - reflexivity.
Defined.

(** ** Jobs that reach the inference *)

(** X11: a job goes through to [infer] when its prompt is truthy, its
    [conditioning_images] is a non-empty list of entries that each have a
    [url], a [start_frame] accepted by [int()] and a [strength] accepted by
    [float()], the directory and the device are obtained, and [int()]
    accepts [seed], [height], [width], [num_frames] and [frame_rate]:
    [infer] is then called with these converted values, the directory, the
    prompts as supplied and the three lists built from the entries. *)
Theorem well_formed_job_reaches_infer (w : world) (j ji : gmap string pyval)
    (items : list pyval) (triples : list (pyval * Z * spec_float))
    (dir : string) (dev : device) (s h wd nf fr : Z) :
  default (VDict ∅) (j !! "input") = VDict ji ->
  truthy (default VNone (ji !! "prompt")) = true ->
  default (VList []) (ji !! "conditioning_images") = VList items ->
  items <> [] ->
  Forall2 contributes items triples ->
  mkdtemp w "ltx_video_output_" = inr dir ->
  get_device w = inr dev ->
  Py.int (default (VInt (randint w 0 (2 ^ 32 - 1))) (ji !! "seed")) = inr s ->
  Py.int (default (VInt DEFAULT_HEIGHT) (ji !! "height")) = inr h ->
  Py.int (default (VInt DEFAULT_WIDTH) (ji !! "width")) = inr wd ->
  Py.int (default (VInt DEFAULT_NUM_FRAMES) (ji !! "num_frames")) = inr nf ->
  Py.int (default (VInt DEFAULT_FRAME_RATE) (ji !! "frame_rate")) = inr fr ->
  In (CallInfer
        {| output_path := dir;
           seed := s;
           pipeline_config := DEFAULT_MODEL_CONFIG;
           image_cond_noise_scale := float_0_15;
           height := h;
           width := wd;
           num_frames := nf;
           frame_rate := fr;
           prompt := default VNone (ji !! "prompt");
           negative_prompt :=
             default (VStr NEGATIVE_PROMPT) (ji !! "negative_prompt");
           offload_to_cpu := false;
           input_media_path := VNone;
           conditioning_media_paths := triples.*1.*1;
           conditioning_strengths := triples.*2;
           conditioning_start_frames := triples.*1.*2;
           device_arg := dev |})
     (trace w (VDict j)).
Proof.
  intros Hi Hp Hl Hne HF Hd Hg Hs Hh Hw Hn Hf.
  apply infer_called.
  exists dir, ji, triples.*1.*1, triples.*1.*2, triples.*2. split.
  - unfold validate. rewrite Hi, Hp, Hl, Hd. cbn [negb Py.iter].
    assert (Ht : truthy (VList items) = true) by by destruct items.
    rewrite Ht. cbn [negb].
    assert (HR : Forall2 (fun image_info t => round image_info = inr t)
                   items triples).
    { eapply Forall2_impl; [exact HF|]. intros x t Hx.
      by apply round_contributes. }
    rewrite (conditioning_loop_complete items triples [] [] [] HR).
    cbn [fst ret app].
    destruct HF as [|i t items' triples' _ _]; [done|]. reflexivity.
  - unfold infer_call. by rewrite Hg, Hs, Hh, Hw, Hn, Hf.
Qed.

Lemma well_formed_job_reaches_infer_witness :
  In (CallInfer cat_args) (trace (world_writing ["video_0.mp4"]) job_cat).
Proof.
  unfold job_cat, job_of.
  apply (well_formed_job_reaches_infer (world_writing ["video_0.mp4"])
           {[ "input" := VDict (input_with "a cat"
                [VDict (image "https://example.org/cat.png" (VInt 0))]) ]}
           (input_with "a cat"
              [VDict (image "https://example.org/cat.png" (VInt 0))])
           [VDict (image "https://example.org/cat.png" (VInt 0))]
           [(VStr "https://example.org/cat.png", 0, float_1_0)]
           "/tmp/ltx_video_output_k3x9" "cuda" 20250101 704 1216 121 30).
  - reflexivity.
  - reflexivity.
  - reflexivity.
  - discriminate.
  - constructor; [|constructor].
    exists (image "https://example.org/cat.png" (VInt 0)).
    repeat split; reflexivity.
  - reflexivity.
  - reflexivity.
  - reflexivity.
  - reflexivity.
  - reflexivity.
  - reflexivity.
  - reflexivity.
Defined.

(** ** The messages of the errors *)

(** The three errors of the validation stage. *)
Lemma validate_returned_message (w : world) (job : pyval) (v : pyval) :
  validate w job = inl (Returned v) ->
  v = error "Prompt is a required input." \/
  v = error "At least one conditioning image (first frame) is required for image-to-video." \/
  v = error "Each conditioning image must have a 'url' and 'start_frame'.".
Proof.
  unfold validate.
  destruct job as [| | | | | |j]; try discriminate.
  destruct (default (VDict ∅) (j !! "input")) as [| | | | | |ji];
    try discriminate.
  destruct (truthy (default VNone (ji !! "prompt"))); cbn [negb];
    [|intros [= <-]; auto].
  destruct (truthy (default (VList []) (ji !! "conditioning_images"))) eqn:Ec;
    cbn [negb]; [|intros [= <-]; auto].
  destruct (mkdtemp w _); [discriminate|].
  destruct (Py.iter _) as [f|items] eqn:Et; [discriminate|].
  pose proof (iter_truthy _ _ Ec Et) as Hne.
  destruct (fst (conditioning_loop items [] [] [])) as [x|[[ps ns] xs]] eqn:El.
  - intros [= ->]. apply conditioning_loop_inl in El as (i & _ & Hr).
    apply round_returned in Hr as [-> _]. auto.
  - apply conditioning_loop_inr in El as (triples & HF & -> & _ & _).
    destruct HF as [|i t items triples _ _]; [done|]. discriminate.
Qed.




Lemma infer_call_no_device (w : world) (dir : string) (ji : gmap string pyval)
    (ps : list pyval) (ns : list Z) (xs : list spec_float) (e : exn) :
  get_device w = inl e -> infer_call w dir ji ps ns xs = inl e.
Proof. unfold infer_call. by intros ->. Qed.

Lemma traceback_failure_log (w : world) (e : exn) :
  In PrintTraceback (failure_log w e) <->
  exists text, caught w e = Returned (error ("Inference failed: " +:+ text)).
Proof.
  unfold failure_log, caught, failed. destruct (is_Exception e); cbn.
  - split; [by eexists|tauto].
  - split; [tauto|by intros [text H]].
Qed.

(** X13: the handler prints a traceback exactly when it returns an
    [Inference failed: ...] error, that is when the [except] clause has
    caught an exception of the [try]; the errors of the validation and of
    the empty output directory are returned without one. *)
Theorem traceback_iff_inference_failed (w : world) (job : pyval) :
  In PrintTraceback (trace w job) <->
  exists text, outcome w job = Returned (error ("Inference failed: " +:+ text)).
Proof.
  rewrite trace_spec, outcome_spec, in_app_iff.
  assert (He : ~ In PrintTraceback (early_calls job)).
  { unfold early_calls. destruct job as [| | | | | |j]; try tauto.
    destruct (default (VDict ∅) (j !! "input")); try tauto.
    destruct (negb _); [tauto|].
    destruct (negb _); cbn; intuition discriminate. }
  destruct (validate w job) as [x|[[dir ji] [[ps ns] xs]]] eqn:Ev.
  - split; [intros [?|[]]; tauto|].
    intros [text ->].
    apply validate_returned_message in Ev as [H|[H|H]];
      apply error_inj in H; discriminate.
  - unfold attempt_trace, attempt_result, located.
    destruct (get_device w) as [e|dev] eqn:Hg.
    { rewrite (infer_call_no_device w dir ji ps ns xs e Hg).
      rewrite <- traceback_failure_log. cbn [In]. intuition discriminate. }
    destruct (infer_call w dir ji ps ns xs) as [e|args].
    { rewrite <- traceback_failure_log. cbn [In]. intuition discriminate. }
    destruct (infer w args) as [e|listing].
    { rewrite <- traceback_failure_log. cbn [In]. intuition discriminate. }
    destruct (glob listing dir "*.mp4" ++ glob listing dir "*.png")
      as [|found others].
    + split.
      * intros [?|H]; [tauto|]. cbn in H. intuition discriminate.
      * intros [text H].
        assert (H' : error "Inference completed but no output video/image file found." =
                     error ("Inference failed: " +:+ text)) by congruence.
        apply error_inj in H'. discriminate.
    + split.
      * intros [?|H]; [tauto|]. cbn in H. intuition discriminate.
      * intros [text H].
        assert (H' : output_video found = error ("Inference failed: " +:+ text))
          by congruence.
        symmetry in H'. by apply error_not_output_video in H'.
Qed.

(** ** The output and the names of the files *)

(** X14: once [infer] has returned, the handler reports an output exactly
    when some entry of the output directory has a name ending in [.mp4] or
    in [.png]; entries with other names ([.gif], [.MP4], [.mp4.part]) are
    not seen and give the error of line 123. *)
Theorem output_found_iff (w : world) (job : pyval) (args : infer_args)
    (listing : list string) :
  In (CallInfer args) (trace w job) ->
  infer w args = inr listing ->
  ((exists path, outcome w job = Returned (output_video path)) <->
   exists name,
     In name listing /\ (ends_with ".mp4" name \/ ends_with ".png" name)) /\
  ((forall name, In name listing ->
      ~ ends_with ".mp4" name /\ ~ ends_with ".png" name) ->
   outcome w job =
   Returned (error "Inference completed but no output video/image file found.")).
Proof.
  intros Hin Hl. rewrite (outcome_after_infer _ _ _ Hin), Hl.
  assert (Hg : forall pattern name,
    In name listing -> fnmatch pattern name = true ->
    In (output_path args +:+ "/" +:+ name)
       (glob listing (output_path args) pattern)).
  { intros pattern name Hn Hm. unfold glob.
    apply list_elem_of_In, list_elem_of_fmap. exists name. split; [done|].
    apply list_elem_of_filter. split; [by apply Is_true_true|].
    by apply list_elem_of_In. }
  unfold located.
  destruct (glob listing (output_path args) "*.mp4" ++
            glob listing (output_path args) "*.png") as [|found others] eqn:Eg.
  - assert (Hnone : forall name, In name listing ->
      ~ ends_with ".mp4" name /\ ~ ends_with ".png" name).
    { intros name Hn. apply app_eq_nil in Eg as [E1 E2]. split; intros He.
      - apply (fnmatch_suffix ".mp4" eq_refl) in He.
        pose proof (Hg _ _ Hn He) as H. rewrite E1 in H. inversion H.
      - apply (fnmatch_suffix ".png" eq_refl) in He.
        pose proof (Hg _ _ Hn He) as H. rewrite E2 in H. inversion H. }
    split; [|done]. split.
    + intros [path H].
      assert (H' : error "Inference completed but no output video/image file found." =
                   output_video path) by congruence.
      by apply error_not_output_video in H'.
    + intros (name & Hn & He). destruct (Hnone name Hn). tauto.
  - assert (Hsome : exists name,
      In name listing /\ (ends_with ".mp4" name \/ ends_with ".png" name)).
    { assert (Hf : In found (glob listing (output_path args) "*.mp4" ++
                             glob listing (output_path args) "*.png"))
        by (rewrite Eg; by left).
      apply in_app_iff in Hf as [H|H];
        apply glob_inv in H as (name & Hn & Hm & _); exists name.
      - apply (fnmatch_suffix ".mp4" eq_refl) in Hm. auto.
      - apply (fnmatch_suffix ".png" eq_refl) in Hm. auto. }
    split; [split; [done|by eexists]|].
    intros Hnone. destruct Hsome as (name & Hn & He).
    destruct (Hnone name Hn). tauto.
Qed.

Lemma output_found_iff_witness :
  outcome (world_writing ["clip.gif"; "CLIP.MP4"; "clip.mp4.part"]) job_cat =
  Returned (error "Inference completed but no output video/image file found.").
Proof.
  apply (proj2 (output_found_iff
                  (world_writing ["clip.gif"; "CLIP.MP4"; "clip.mp4.part"])
                  job_cat cat_args ["clip.gif"; "CLIP.MP4"; "clip.mp4.part"]
                  ltac:(vm_compute; tauto) eq_refl)).
  intros name [<-|[<-|[<-|[]]]]; split; intros H.
  all: first [ apply (fnmatch_suffix ".mp4" eq_refl) in H
             | apply (fnmatch_suffix ".png" eq_refl) in H ].
  all: vm_compute in H; discriminate H.
Defined.

(** X15: when [get_device] raises [e], [infer] is not called; if the job
    had passed the validation, the directory is already created and the
    calls stop there: the handler returns
    [{"error": "Inference failed: " + str(e)}] when [e] is an instance of
    [Exception], and lets [e] through when it is not. *)
Theorem device_failure_skips_infer (w : world) (job : pyval) (e : exn) :
  get_device w = inl e ->
  infer_not_invoked w job /\
  (In CallGetDevice (trace w job) ->
   (is_Exception e = true ->
    outcome w job = Returned (error ("Inference failed: " +:+ str_exn w e))) /\
   (is_Exception e = false -> outcome w job = Raised e) /\
   calls (trace w job) =
   [CallRandint 0 (2 ^ 32 - 1); CallMkdtemp "ltx_video_output_"; CallGetDevice]).
Proof.
  intros Hg. split.
  - intros args Hin.
    apply infer_called in Hin as (dir & ji & ps & ns & xs & _ & Hc).
    rewrite (infer_call_no_device w dir ji ps ns xs e Hg) in Hc. discriminate.
  - intros Hin. apply get_device_called in Hin as [[[dir ji] [[ps ns] xs]] Hv].
    assert (Ho : outcome w job = caught w e).
    { rewrite outcome_spec, Hv. unfold attempt_result.
      by rewrite (infer_call_no_device w dir ji ps ns xs e Hg). }
    rewrite Ho. unfold caught, failed.
    split; [by intros ->|]. split; [by intros ->|].
    rewrite trace_spec, Hv. unfold calls. rewrite filter_app.
    fold (calls (early_calls job)).
    fold (calls (attempt_trace w dir ji ps ns xs)).
    rewrite calls_attempt_trace, Hg.
    pose proof (validate_inr _ _ _ _ _ _ _ Hv)
      as (j & items & _ & -> & Hi & Hp & Hl & Hne & _).
    unfold early_calls. rewrite Hi, Hp, Hl.
    by destruct items.
Qed.

Lemma device_failure_skips_infer_witness :
  infer_not_invoked world_without_device job_cat /\
  (In CallGetDevice (trace world_without_device job_cat) ->
   (is_Exception (External "RuntimeError" "No CUDA GPUs are available") = true ->
    outcome world_without_device job_cat =
    Returned (error ("Inference failed: " +:+
                     str_exn world_without_device
                       (External "RuntimeError" "No CUDA GPUs are available")))) /\
   (is_Exception (External "RuntimeError" "No CUDA GPUs are available") = false ->
    outcome world_without_device job_cat =
    Raised (External "RuntimeError" "No CUDA GPUs are available")) /\
   calls (trace world_without_device job_cat) =
   [CallRandint 0 (2 ^ 32 - 1); CallMkdtemp "ltx_video_output_"; CallGetDevice]).
Proof.
  apply (device_failure_skips_infer world_without_device job_cat
           (External "RuntimeError" "No CUDA GPUs are available")).
  reflexivity.
Defined.
